(** * The tool-calling loop of [backend/ai_generator.py]

    A shallow embedding of [AIGenerator]: the request it builds, the text it
    extracts, the execution of [tool_use] blocks with error containment, the
    message accumulation and the bounded round loop.  The LLM client and the
    tool manager are the two collaborators the generator talks to; both are
    stateful objects, so the embedding threads a [World] holding their states
    together with the chronological record of the calls made on them (what
    the test-suite reads back from [call_args_list] and [call_count]).

    The generator is embedded twice.  The first embedding is about calls
    that complete: a tool returns or raises an instance of [Exception].
    The second, [Escaping], adds the exceptions that the handler
    [except Exception] lets through; the two agree on every manager that
    raises none of these. *)

From Stdlib Require Import String Ascii List Arith ZArith Lia Bool.
From stdpp Require Import base option list strings gmap.
From Equations Require Import Equations.

Open Scope string_scope.
Open Scope list_scope.

(** ** Python values *)

(** Strings are byte strings (UTF-8), as they sit in the source file. *)
Definition dquote : string := String "034"%char EmptyString.

(** The values a [tool_use] block carries in its [input] mapping. *)
Inductive JsonValue : Type :=
| JNull
| JBool (b : bool)
| JNum (z : Z)
| JStr (s : string).

(** [block.input], unpacked as keyword arguments by [**block.input]. *)
Abbreviation kwargs := (gmap string JsonValue).

(** An instance of [Exception], as bound by [except Exception as e]:
    its class name and [str(e)]. *)
Record PyException : Type := Raise {
  exc_class : string;
  exc_str : string
}.

(** What a call that may raise does: it returns a value or raises. *)
Inductive Outcome (A : Type) : Type :=
| Returns (a : A)
| Raises (e : PyException).
Arguments Returns {A} a.
Arguments Raises {A} e.

(** Python truthiness of the three optional arguments of
    [generate_response]. *)
Class Truthy (A : Type) := truthy : A -> bool.

#[export] Instance truthy_str : Truthy string :=
  fun s => negb (String.eqb s "").
#[export] Instance truthy_list {A} : Truthy (list A) :=
  fun l => match l with [] => false | _ :: _ => true end.
#[export] Instance truthy_optional {A} `{Truthy A} : Truthy (option A) :=
  fun o => match o with None => false | Some a => truthy a end.

(** [needle in hay] on strings. *)
Fixpoint is_substring (needle hay : string) : bool :=
  String.prefix needle hay
  || match hay with
     | EmptyString => false
     | String _ rest => is_substring needle rest
     end.

(** ** Data model *)

(** A content block of a response: [block.type], [block.text],
    [block.name], [block.input], [block.id]. *)
Record ContentBlock : Type := MockContentBlock {
  block_type : string;
  block_text : string;
  block_name : string;
  block_input : kwargs;
  block_id : string
}.

(** [response.content] and [response.stop_reason]. *)
Record Response : Type := MockResponse {
  content : list ContentBlock;
  stop_reason : string
}.

(** The dict with keys [type], [tool_use_id] and [content] built for each
    executed block. *)
Record ToolResult : Type := {
  result_type : string;
  tool_use_id : string;
  result_content : string
}.

(** The [content] of a message: the query text, the content of an assistant
    response, or a list of tool results. *)
Inductive MessageContent : Type :=
| Text (s : string)
| Blocks (bs : list ContentBlock)
| ToolResults (rs : list ToolResult).

(** A message dict with keys [role] and [content]. *)
Record Message : Type := {
  role : string;
  msg_content : MessageContent
}.

(** A tool definition handed to the LLM. *)
Record ToolDef : Type := {
  tool_name : string;
  tool_description : string;
  tool_input_schema : list (string * string);
  tool_required : list string
}.

(** The keyword arguments of [client.messages.create]: the base parameters,
    [messages], [system], and the two keys that are present only when tools
    are sent. *)
Record Request : Type := {
  req_model : string;
  req_temperature : Z;
  req_max_tokens : Z;
  req_messages : list Message;
  req_system : string;
  req_tools : option (list ToolDef);
  req_tool_choice : option string
}.

(** ** The collaborators *)

(** [self.client.messages.create] applied to the unpacked [api_params], on
    a client in state [L]. *)
Class LLMClient (L : Type) := {
  messages_create : L -> Request -> L * Response
}.

(** [tool_manager.execute_tool] applied to a name and unpacked keyword
    arguments, on a manager in state [M]: it returns a text or raises. *)
Class ToolExecutor (M : Type) := {
  execute_tool : M -> string -> kwargs -> M * Outcome string
}.

(** One recorded call of [execute_tool]: its arguments and what it did. *)
Record ToolCall : Type := {
  call_name : string;
  call_kwargs : kwargs;
  call_outcome : Outcome string
}.

(** The reference passed as [tool_manager]: the manager object, whose state
    lives in the world.  [None] is Python's [None]. *)
Inductive ManagerRef : Type := the_manager.

#[export] Instance truthy_manager : Truthy ManagerRef := fun _ => true.

(** ** Stateful computations *)

(** A computation over a state [S]: it returns a value and the new state. *)
Definition State (S A : Type) : Type := S -> A * S.

Definition ret {S A} (a : A) : State S A := fun s => (a, s).

Definition bind {S A B} (m : State S A) (k : A -> State S B) : State S B :=
  fun s => let '(a, s') := m s in k a s'.

Notation "'let*' x := m 'in' k" := (bind m (fun x => k))
  (at level 10, x name, m at level 100, k at level 200).

(** ** The state of a run *)

Section AIGenerator.

Context {L M : Type} `{LLMClient L} `{ToolExecutor M}.

(** The objects a run touches: the generator ([self.client], [self.model]),
    the tool manager, and the calls recorded on both, oldest first. *)
Record World : Type := {
  client : L;
  model : string;
  manager : M;
  api_calls : list (Request * Response);
  tool_calls : list ToolCall
}.

(** Computations that read and update the world. *)
Definition Run (A : Type) : Type := State World A.

(** The client answers a request; the exchange is recorded. *)
Definition client_messages_create (api_params : Request) : Run Response :=
  fun w =>
    let '(c, response) := messages_create (client w) api_params in
    (response,
     {| client := c; model := model w; manager := manager w;
        api_calls := api_calls w ++ [(api_params, response)];
        tool_calls := tool_calls w |}).

(** The manager executes a tool; the call is recorded. *)
Definition tool_manager_execute_tool (name : string) (input : kwargs)
  : Run (Outcome string) :=
  fun w =>
    let '(m, outcome) := execute_tool (manager w) name input in
    (outcome,
     {| client := client w; model := model w; manager := m;
        api_calls := api_calls w;
        tool_calls := tool_calls w
                        ++ [{| call_name := name; call_kwargs := input;
                               call_outcome := outcome |}] |}).

(** ** AIGenerator *)

Definition MAX_TOOL_ROUNDS : nat := 2.

Definition SYSTEM_PROMPT : string :=
  " You are an AI assistant specialized in course materials and educational content with access to tools for course information.

Tool Usage:
- **search_course_content**: Use for questions about specific course content or detailed educational materials
- **get_course_outline**: Use for questions about course structure, lesson lists, or what topics a course covers
  - Always include: course title, course link, and the complete lesson list with lesson numbers and titles

Search Tool Usage:
- Use the search tool **only** for questions about specific course content or detailed educational materials
- **Up to two tool calls per query** - Use sequential calls when needed (e.g., get outline first, then search specific content)
- Synthesize search results into accurate, fact-based responses
- If search yields no results, state this clearly without offering alternatives

Response Protocol:
- **General knowledge questions**: Answer using existing knowledge without searching
- **Course-specific questions**: Search first, then answer
- **Course outline/structure questions**: Use get_course_outline tool
- **No meta-commentary**:
  - Provide direct answers only â€” no reasoning process, search explanations, or question-type analysis
  - Do not mention " +:+ dquote +:+ "based on the search results" +:+ dquote +:+ "


All responses must be:
1. **Brief, Concise and focused** - Get to the point quickly
2. **Educational** - Maintain instructional value
3. **Clear** - Use accessible language
4. **Example-supported** - Include relevant examples when they aid understanding
Provide only the direct answer to what was asked.
".

(** [_extract_text_response]: the text of the first block of type [text],
    the empty string when there is none. *)
Fixpoint first_text (blocks : list ContentBlock) : string :=
  match blocks with
  | [] => ""
  | block :: rest =>
      if String.eqb (block_type block) "text" then block_text block
      else first_text rest
  end.

Definition _extract_text_response (response : Response) : string :=
  first_text (content response).

(** [_make_api_call]: the base parameters with [messages] and [system];
    [tools] and [tool_choice] are added when [tools and include_tools]. *)
Definition api_params (self_model : string) (messages : list Message)
    (system_content : string) (tools : option (list ToolDef))
    (include_tools : bool) : Request :=
  let with_tools := truthy tools && include_tools in
  {| req_model := self_model; req_temperature := 0; req_max_tokens := 800;
     req_messages := messages;
     req_system := system_content;
     req_tools := if with_tools then tools else None;
     req_tool_choice := if with_tools then Some "auto" else None |}.

Definition _make_api_call (messages : list Message) (system_content : string)
    (tools : option (list ToolDef)) (include_tools : bool) : Run Response :=
  fun w =>
    client_messages_create
      (api_params (model w) messages system_content tools include_tools) w.

(** The call [tool_manager.execute_tool] inside the [try]: on [None] the
    attribute lookup raises. *)
Definition try_execute_tool (tool_manager : option ManagerRef)
    (name : string) (input : kwargs) : Run (Outcome string) :=
  match tool_manager with
  | Some the_manager => tool_manager_execute_tool name input
  | None =>
      ret (Raises (Raise "AttributeError"
             "'NoneType' object has no attribute 'execute_tool'"))
  end.

(** [_execute_tools]: the loop over [response.content], with the list
    [tool_results] it appends to.  Here a call returns or raises an
    instance of [Exception], which the handler catches; the exceptions
    that pass the handler are the subject of [Escaping] below. *)
Fixpoint execute_blocks (tool_manager : option ManagerRef)
    (blocks : list ContentBlock) (tool_results : list ToolResult)
  : Run (list ToolResult) :=
  match blocks with
  | [] => ret tool_results
  | block :: rest =>
      if String.eqb (block_type block) "tool_use" then
        let* outcome := try_execute_tool tool_manager (block_name block)
                          (block_input block) in
        let result :=
          match outcome with
          | Returns text => text
          | Raises e => "Tool execution error: " +:+ exc_str e
          end in
        execute_blocks tool_manager rest
          (tool_results ++ [{| result_type := "tool_result";
                               tool_use_id := block_id block;
                               result_content := result |}])
      else execute_blocks tool_manager rest tool_results
  end.

Definition _execute_tools (response : Response)
    (tool_manager : option ManagerRef) : Run (list ToolResult) :=
  execute_blocks tool_manager (content response) [].

(** [_build_messages_with_tool_results]: a copy of [messages] with the
    assistant response and the tool results appended. *)
Definition _build_messages_with_tool_results (messages : list Message)
    (assistant_response : Response) (tool_results : list ToolResult)
  : list Message :=
  let new_messages := messages in
  let new_messages :=
    new_messages ++ [{| role := "assistant";
                        msg_content := Blocks (content assistant_response) |}] in
  let new_messages :=
    new_messages ++ [{| role := "user";
                        msg_content := ToolResults tool_results |}] in
  new_messages.

(** The [while current_round < self.MAX_TOOL_ROUNDS] loop of
    [_run_tool_loop], with the bound as [max_rounds], followed by the forced
    call made when the loop runs out. *)
Equations? tool_rounds (max_rounds : nat) (system_content : string)
    (tools : option (list ToolDef)) (tool_manager : option ManagerRef)
    (current_round : nat) (current_messages : list Message)
  : Run string by wf (max_rounds - current_round) lt :=
  tool_rounds max_rounds system_content tools tool_manager
      current_round current_messages
    with lt_dec current_round max_rounds := {
    | left _ =>
        let* response :=
          _make_api_call current_messages system_content tools true in
        if negb (String.eqb (stop_reason response) "tool_use") then
          ret (_extract_text_response response)
        else if negb (truthy tool_manager) then
          ret (_extract_text_response response)
        else
          let* tool_results := _execute_tools response tool_manager in
          tool_rounds max_rounds system_content tools tool_manager
            (current_round + 1)
            (_build_messages_with_tool_results
               current_messages response tool_results)
    | right _ =>
        let* final_response :=
          _make_api_call current_messages system_content None false in
        ret (_extract_text_response final_response)
    }.
Proof. lia. Qed.

Definition _run_tool_loop (messages : list Message) (system_content : string)
    (tools : option (list ToolDef)) (tool_manager : option ManagerRef)
  : Run string :=
  let current_round := 0 in
  let current_messages := messages in
  tool_rounds MAX_TOOL_ROUNDS system_content tools tool_manager
    current_round current_messages.

(** How an f-string renders [conversation_history]. *)
Definition format_history (conversation_history : option string) : string :=
  match conversation_history with
  | Some history => history
  | None => "None"
  end.

Definition system_content_for (conversation_history : option string)
  : string :=
  if truthy conversation_history then
    SYSTEM_PROMPT +:+ "

Previous conversation:
" +:+ format_history conversation_history
  else SYSTEM_PROMPT.

Definition generate_response (query : string)
    (conversation_history : option string) (tools : option (list ToolDef))
    (tool_manager : option ManagerRef) : Run string :=
  let system_content := system_content_for conversation_history in
  let messages := [{| role := "user"; msg_content := Text query |}] in
  if truthy tools then
    _run_tool_loop messages system_content tools tool_manager
  else
    let* response := _make_api_call messages system_content None true in
    ret (_extract_text_response response).

(** ** What a run leaves in the records *)

(** The exchanges with the LLM and the tool executions made between two
    states of the world. *)
Definition issued (w w' : World) : list (Request * Response) :=
  drop (length (api_calls w)) (api_calls w').

Definition executed (w w' : World) : list ToolCall :=
  drop (length (tool_calls w)) (tool_calls w').

(** The blocks of a response that [_execute_tools] executes. *)
Definition tool_use_blocks (response : Response) : list ContentBlock :=
  List.filter (fun block => String.eqb (block_type block) "tool_use")
    (content response).

(** A recorded call is the execution of a block: same name, same input. *)
Definition executed_as (block : ContentBlock) (call : ToolCall) : Prop :=
  call_name call = block_name block /\ call_kwargs call = block_input block.

(** The text handed back for a call: what it returned, or the error text
    built in the [except] branch. *)
Definition result_text (outcome : Outcome string) : string :=
  match outcome with
  | Returns text => text
  | Raises e => "Tool execution error: " +:+ exc_str e
  end.

(** The tool result built for a block from the recorded call. *)
Definition result_of (block : ContentBlock) (call : ToolCall) : ToolResult :=
  {| result_type := "tool_result";
     tool_use_id := block_id block;
     result_content := result_text (call_outcome call) |}.

(** The two messages a completed tool round appends. *)
Definition assistant_message (response : Response) : Message :=
  {| role := "assistant"; msg_content := Blocks (content response) |}.

Definition tool_result_message (tool_results : list ToolResult) : Message :=
  {| role := "user"; msg_content := ToolResults tool_results |}.

(** The traces of the round loop with [n] rounds left, started on the
    message list [msgs]: the exchanges it records, the tool calls it
    records, the results appended round by round and the text it returns. *)
Inductive loop_trace (self_model system_content : string)
    (tools : option (list ToolDef)) (tool_manager : option ManagerRef)
  : nat -> list Message -> list (Request * Response) -> list ToolCall ->
    string -> Prop :=
| trace_forced msgs response :
    loop_trace self_model system_content tools tool_manager 0 msgs
      [(api_params self_model msgs system_content None false, response)]
      [] (_extract_text_response response)
| trace_answer n msgs response :
    stop_reason response <> "tool_use" \/ truthy tool_manager = false ->
    loop_trace self_model system_content tools tool_manager (S n) msgs
      [(api_params self_model msgs system_content tools true, response)]
      [] (_extract_text_response response)
| trace_round n msgs response calls tool_results exchanges calls' text :
    stop_reason response = "tool_use" ->
    truthy tool_manager = true ->
    Forall2 executed_as (tool_use_blocks response) calls ->
    tool_results = zip_with result_of (tool_use_blocks response) calls ->
    loop_trace self_model system_content tools tool_manager n
      (msgs ++ [assistant_message response;
                tool_result_message tool_results])
      exchanges calls' text ->
    loop_trace self_model system_content tools tool_manager (S n) msgs
      ((api_params self_model msgs system_content tools true, response)
         :: exchanges)
      (calls ++ calls') text.

End AIGenerator.

Arguments World : clear implicits.

(** ** Exceptions outside the [Exception] hierarchy *)

(** The handler of [_execute_tools] is [except Exception]: an exception
    whose class derives from [BaseException] only ([KeyboardInterrupt],
    [SystemExit], [GeneratorExit]) passes through it.  The generator is
    embedded here a second time with that channel: a tool call returns,
    raises an instance of [Exception], or raises such a signal, and every
    function either completes or lets the signal through. *)
Module Escaping.

(** An exception that is not an instance of [Exception]: its class name
    and [str(e)]. *)
Record Signal : Type := {
  signal_class : string;
  signal_str : string
}.

(** How a call ends: normally with a value, or with a signal on its way
    up. *)
Inductive Completion (A : Type) : Type :=
| Normal (a : A)
| Propagates (s : Signal).
Arguments Normal {A} a.
Arguments Propagates {A} s.

(** [tool_manager.execute_tool] when the signals are taken into account:
    it returns a text, raises an instance of [Exception], or raises a
    signal. *)
Class AnyToolExecutor (M : Type) := {
  execute_tool_any : M -> string -> kwargs -> M * Completion (Outcome string)
}.

(** Stateful computations that a signal may cut short. *)
Definition Raising (S A : Type) : Type := S -> Completion A * S.

Definition pure {S A} (a : A) : Raising S A := fun s => (Normal a, s).

Definition bind_raising {S A B} (m : Raising S A) (k : A -> Raising S B)
  : Raising S B :=
  fun s =>
    match m s with
    | (Normal a, s') => k a s'
    | (Propagates signal, s') => (Propagates signal, s')
    end.

(** A computation that raises nothing. *)
Definition lift {S A} (m : State S A) : Raising S A :=
  fun s => let '(a, s') := m s in (Normal a, s').

Notation "'let!' x := m 'in' k" := (bind_raising m (fun x => k))
  (at level 10, x name, m at level 100, k at level 200).

(** A manager that returns or raises instances of [Exception] only, seen
    as one that could raise signals. *)
Definition without_signals {M : Type} `{ToolExecutor M} : AnyToolExecutor M :=
  {| execute_tool_any m name input :=
       let '(m', outcome) := execute_tool m name input in
       (m', Normal outcome) |}.

(** What the record of tool calls keeps of a call: for a signal, that
    the call raised, with the class and the text of the signal. *)
Definition recorded (completion : Completion (Outcome string))
  : Outcome string :=
  match completion with
  | Normal outcome => outcome
  | Propagates signal =>
      Raises (Raise (signal_class signal) (signal_str signal))
  end.

Section AIGenerator.

Context {L M : Type} `{LLMClient L} `{AnyToolExecutor M}.

Definition Run (A : Type) : Type := Raising (World L M) A.


(** The manager executes a tool; the call is recorded. *)
Definition tool_manager_execute_tool (name : string) (input : kwargs)
  : Run (Outcome string) :=
  fun w =>
    let '(m, completion) := execute_tool_any (manager w) name input in
    (completion,
     {| client := client w; model := model w; manager := m;
        api_calls := api_calls w;
        tool_calls := tool_calls w
                        ++ [{| call_name := name; call_kwargs := input;
                               call_outcome := recorded completion |}] |}).

(** The call inside the [try]; the [AttributeError] of a lookup on [None]
    is an instance of [Exception]. *)
Definition try_execute_tool (tool_manager : option ManagerRef)
    (name : string) (input : kwargs) : Run (Outcome string) :=
  match tool_manager with
  | Some the_manager => tool_manager_execute_tool name input
  | None =>
      pure (Raises (Raise "AttributeError"
              "'NoneType' object has no attribute 'execute_tool'"))
  end.

(** [_execute_tools]: a returned text and the text built by the handler
    are appended to [tool_results]; a signal ends the loop over the blocks
    there and then. *)
Fixpoint execute_blocks (tool_manager : option ManagerRef)
    (blocks : list ContentBlock) (tool_results : list ToolResult)
  : Run (list ToolResult) :=
  match blocks with
  | [] => pure tool_results
  | block :: rest =>
      if String.eqb (block_type block) "tool_use" then
        let! outcome := try_execute_tool tool_manager (block_name block)
                          (block_input block) in
        let result :=
          match outcome with
          | Returns text => text
          | Raises e => "Tool execution error: " +:+ exc_str e
          end in
        execute_blocks tool_manager rest
          (tool_results ++ [{| result_type := "tool_result";
                               tool_use_id := block_id block;
                               result_content := result |}])
      else execute_blocks tool_manager rest tool_results
  end.

Definition _execute_tools (response : Response)
    (tool_manager : option ManagerRef) : Run (list ToolResult) :=
  execute_blocks tool_manager (content response) [].

(** The loop of [_run_tool_loop] and the forced call after it; a signal
    that leaves [_execute_tools] leaves the loop. *)
Equations? tool_rounds (max_rounds : nat) (system_content : string)
    (tools : option (list ToolDef)) (tool_manager : option ManagerRef)
    (current_round : nat) (current_messages : list Message)
  : Run string by wf (max_rounds - current_round) lt :=
  tool_rounds max_rounds system_content tools tool_manager
      current_round current_messages
    with lt_dec current_round max_rounds := {
    | left _ =>
        let! response :=
          lift (_make_api_call current_messages system_content tools true) in
        if negb (String.eqb (stop_reason response) "tool_use") then
          pure (_extract_text_response response)
        else if negb (truthy tool_manager) then
          pure (_extract_text_response response)
        else
          let! tool_results := _execute_tools response tool_manager in
          tool_rounds max_rounds system_content tools tool_manager
            (current_round + 1)
            (_build_messages_with_tool_results
               current_messages response tool_results)
    | right _ =>
        let! final_response :=
          lift (_make_api_call current_messages system_content None false) in
        pure (_extract_text_response final_response)
    }.
Proof. lia. Qed.

Definition _run_tool_loop (messages : list Message) (system_content : string)
    (tools : option (list ToolDef)) (tool_manager : option ManagerRef)
  : Run string :=
  let current_round := 0 in
  let current_messages := messages in
  tool_rounds MAX_TOOL_ROUNDS system_content tools tool_manager
    current_round current_messages.

Definition generate_response (query : string)
    (conversation_history : option string) (tools : option (list ToolDef))
    (tool_manager : option ManagerRef) : Run string :=
  let system_content := system_content_for conversation_history in
  let messages := [{| role := "user"; msg_content := Text query |}] in
  if truthy tools then
    _run_tool_loop messages system_content tools tool_manager
  else
    let! response :=
      lift (_make_api_call messages system_content None true) in
    pure (_extract_text_response response).

End AIGenerator.

(** A manager that answers from a script, as a mock with a list of
    [side_effect] entries does: a text to return, an exception or a signal
    to raise.  Past the end of its script it returns the empty text; no
    scenario below goes that far. *)
Record ScriptedManager : Type := {
  side_effect : list (Completion (Outcome string))
}.

#[global] Instance scripted_manager : AnyToolExecutor ScriptedManager := {
  execute_tool_any m _ _ :=
    match side_effect m with
    | [] => (m, Normal (Returns ""))
    | effect :: rest => ({| side_effect := rest |}, effect)
    end
}.

End Escaping.

(** ** Collaborators used by the test-suite *)

(** A client that answers from a script, as a mock with a list of
    [side_effect] responses does.  Past the end of its script it answers
    with an empty [end_turn] response; no scenario below goes that far. *)
Record ScriptedClient : Type := { script : list Response }.

#[export] Instance scripted_llm : LLMClient ScriptedClient := {
  messages_create c _ :=
    match script c with
    | [] => (c, MockResponse [] "end_turn")
    | response :: rest => ({| script := rest |}, response)
    end
}.

(** Modelled from the spec: the [Tool] class of [search_tools.py], which is
    not part of the sources at hand.  A tool has a machine-readable
    definition and an [execute] operation from keyword arguments to text,
    which may raise. *)
Record Tool : Type := {
  definition : ToolDef;
  execute : kwargs -> Outcome string
}.

(** Modelled from the spec: the [ToolManager] class of [search_tools.py],
    which is not part of the sources at hand.  The manager holds a mapping
    from tool name to tool. *)
Record ToolManager : Type := { tools : gmap string Tool }.

(** Modelled from the spec: [ToolManager.register_tool], missing with
    [search_tools.py].  It stores the tool under its declared name; a tool
    registered under a name already taken replaces the earlier one. *)
Definition register_tool (tool : Tool) (tm : ToolManager) : ToolManager :=
  {| tools := <[tool_name (definition tool) := tool]> (tools tm) |}.

(** Modelled from the spec: [ToolManager.execute_tool], missing with
    [search_tools.py].  It dispatches the execution by name; on an unknown
    name it answers with the text [Tool '<name>' not found] instead of
    raising. *)
Definition ToolManager_execute_tool (tm : ToolManager) (name : string)
    (input : kwargs) : ToolManager * Outcome string :=
  match tools tm !! name with
  | None => (tm, Returns ("Tool '" +:+ name +:+ "' not found"))
  | Some tool => (tm, execute tool input)
  end.

#[export] Instance tool_manager_executor : ToolExecutor ToolManager := {
  execute_tool := ToolManager_execute_tool
}.

(** ** Scenarios of the test-suite *)

Definition outline_def : ToolDef :=
  {| tool_name := "get_course_outline"; tool_description := "Get outline";
     tool_input_schema := [("course_name", "string")];
     tool_required := ["course_name"] |}.

Definition search_def : ToolDef :=
  {| tool_name := "search_course_content"; tool_description := "Search";
     tool_input_schema := [("query", "string")];
     tool_required := ["query"] |}.

Definition test_tools : list ToolDef := [outline_def; search_def].

(** An outline tool that fails and a search tool that answers. *)
Definition failing_outline_tool : Tool :=
  {| definition := outline_def;
     execute := fun _ => Raises (Raise "Exception" "Course not found") |}.

Definition search_tool : Tool :=
  {| definition := search_def;
     execute := fun _ => Returns "Alternative content here" |}.

Definition empty_manager : ToolManager := {| tools := ∅ |}.

Definition test_manager : ToolManager :=
  register_tool search_tool (register_tool failing_outline_tool empty_manager).

Definition round1_response : Response :=
  MockResponse
    [MockContentBlock "tool_use" "" "get_course_outline"
       {[ "course_name" := JStr "NonExistent" ]} "tool_1"]
    "tool_use".

Definition round2_response : Response :=
  MockResponse
    [MockContentBlock "tool_use" "" "search_course_content"
       {[ "query" := JStr "alternative search" ]} "tool_2"]
    "tool_use".

Definition final_response : Response :=
  MockResponse [MockContentBlock "text" "Found alternative info" "" ∅ ""]
    "end_turn".

Definition direct_answer : Response :=
  MockResponse [MockContentBlock "text" "This is a direct answer." "" ∅ ""]
    "end_turn".

(** A response that stops with [tool_use] without any block of that type. *)
Definition hollow_tool_use : Response :=
  MockResponse [MockContentBlock "text" "Let me look that up." "" ∅ ""]
    "tool_use".

Definition mock_world (responses : list Response) (tm : ToolManager)
  : World ScriptedClient ToolManager :=
  {| client := {| script := responses |}; model := "claude-test";
     manager := tm; api_calls := []; tool_calls := [] |}.

(** The runs of the scenarios. *)
Definition exhausted_world : World ScriptedClient ToolManager :=
  mock_world [round1_response; round2_response; final_response] test_manager.

Definition exhausted_run : string * World ScriptedClient ToolManager :=
  generate_response "Question" None (Some test_tools) (Some the_manager)
    exhausted_world.

Definition two_round_world : World ScriptedClient ToolManager :=
  mock_world [round1_response; final_response] test_manager.

Definition two_round_run : string * World ScriptedClient ToolManager :=
  generate_response "Question" None (Some test_tools) (Some the_manager)
    two_round_world.

Definition no_manager_world : World ScriptedClient ToolManager :=
  mock_world [round1_response] empty_manager.

Definition no_manager_run : string * World ScriptedClient ToolManager :=
  generate_response "Question" None (Some test_tools) None no_manager_world.

Definition direct_world : World ScriptedClient ToolManager :=
  mock_world [direct_answer] empty_manager.

Definition direct_run : string * World ScriptedClient ToolManager :=
  generate_response "What is Python?" None None None direct_world.

Definition hollow_world : World ScriptedClient ToolManager :=
  mock_world [hollow_tool_use; round2_response; final_response] test_manager.

Definition hollow_run : string * World ScriptedClient ToolManager :=
  generate_response "Question" None (Some test_tools) (Some the_manager)
    hollow_world.

Definition idle_world : World ScriptedClient ToolManager :=
  mock_world [] test_manager.

Definition failing_execution
  : list ToolResult * World ScriptedClient ToolManager :=
  _execute_tools round1_response (Some the_manager) idle_world.

Definition succeeding_execution
  : list ToolResult * World ScriptedClient ToolManager :=
  _execute_tools round2_response (Some the_manager) idle_world.

Definition answering_run : string * World ScriptedClient ToolManager :=
  generate_response "Question" None (Some test_tools) (Some the_manager)
    direct_world.










(** ** Properties of the generator *)

Section Properties.

Context {L M : Type} `{LLMClient L} `{ToolExecutor M}.

Implicit Types (w : World L M) (response : Response).

(** *** One call of the client *)

Lemma make_api_call_run messages system_content tools include_tools w
    response w1 :
  _make_api_call messages system_content tools include_tools w
    = (response, w1) ->
  api_calls w1
    = api_calls w
        ++ [(api_params (model w) messages system_content tools include_tools,
             response)]
  /\ tool_calls w1 = tool_calls w
  /\ model w1 = model w.
Proof.
  unfold _make_api_call, client_messages_create.
  destruct (messages_create _ _) as [c r].
  intros [= <- <-]. auto.
Qed.

(** *** Executing the blocks of a response *)

Lemma zip_results_ids (blocks : list ContentBlock) (calls : list ToolCall) :
  Forall2 executed_as blocks calls ->
  map tool_use_id (zip_with result_of blocks calls) = map block_id blocks.
Proof.
  induction 1 as [|b c bs cs _ _ IH]; simpl; [done|]. by rewrite IH.
Qed.

Lemma execute_blocks_run tool_manager (blocks : list ContentBlock) :
  truthy tool_manager = true ->
  forall tool_results w results w',
    execute_blocks tool_manager blocks tool_results w = (results, w') ->
    exists calls,
      tool_calls w' = tool_calls w ++ calls
      /\ api_calls w' = api_calls w
      /\ model w' = model w
      /\ Forall2 executed_as
           (List.filter (fun b => String.eqb (block_type b) "tool_use") blocks)
           calls
      /\ results
         = tool_results
             ++ zip_with result_of
                  (List.filter
                     (fun b => String.eqb (block_type b) "tool_use") blocks)
                  calls.
Proof.
  intros Htm.
  destruct tool_manager as [[]|]; [clear Htm|discriminate].
  induction blocks as [|block rest IH]; intros acc w results w' Hrun.
  - injection Hrun as <- <-. exists []. simpl.
    rewrite !app_nil_r. repeat split; constructor.
  - simpl in Hrun. simpl List.filter.
    destruct (String.eqb (block_type block) "tool_use").
    + unfold bind, try_execute_tool, tool_manager_execute_tool in Hrun.
      destruct (execute_tool _ _ _) as [m outcome].
      apply IH in Hrun as (calls & Htc & Hac & Hmo & Hex & Hres).
      simpl in Htc, Hac, Hmo.
      eexists (_ :: calls). split_and!.
      * rewrite Htc, <- app_assoc. reflexivity.
      * done.
      * done.
      * constructor; [|exact Hex]. by split.
      * rewrite Hres, <- app_assoc. simpl.
        unfold result_of at 2. simpl. by destruct outcome.
    + by apply IH in Hrun.
Qed.

Lemma execute_tools_run response tool_manager w results w' :
  truthy tool_manager = true ->
  _execute_tools response tool_manager w = (results, w') ->
  exists calls,
    tool_calls w' = tool_calls w ++ calls
    /\ api_calls w' = api_calls w
    /\ model w' = model w
    /\ Forall2 executed_as (tool_use_blocks response) calls
    /\ results = zip_with result_of (tool_use_blocks response) calls.
Proof.
  intros Htm Hrun. unfold _execute_tools in Hrun.
  by apply execute_blocks_run in Hrun.
Qed.

(** *** The round loop *)

Lemma build_messages_app (messages : list Message) response
    (tool_results : list ToolResult) :
  _build_messages_with_tool_results messages response tool_results
  = messages ++ [assistant_message response;
                 tool_result_message tool_results].
Proof.
  unfold _build_messages_with_tool_results. by rewrite <- app_assoc.
Qed.

Lemma tool_rounds_step max_rounds system_content tools tool_manager
    current_round current_messages :
  tool_rounds (H:=H) (H0:=H0) max_rounds system_content tools tool_manager
    current_round current_messages
  = if decide (current_round < max_rounds) then
      let* response :=
        _make_api_call current_messages system_content tools true in
      if negb (String.eqb (stop_reason response) "tool_use") then
        ret (_extract_text_response response)
      else if negb (truthy tool_manager) then
        ret (_extract_text_response response)
      else
        let* tool_results := _execute_tools response tool_manager in
        tool_rounds max_rounds system_content tools tool_manager
          (current_round + 1)
          (_build_messages_with_tool_results
             current_messages response tool_results)
    else
      let* final_response :=
        _make_api_call current_messages system_content None false in
      ret (_extract_text_response final_response).
Proof.
  simp tool_rounds.
  destruct (lt_dec current_round max_rounds); simpl;
    case_decide; try lia; reflexivity.
Qed.

(** Every run of the loop leaves one of its traces in the records. *)
Lemma tool_rounds_trace max_rounds system_content tools tool_manager n :
  forall current_round current_messages w text w',
    max_rounds - current_round = n ->
    tool_rounds max_rounds system_content tools tool_manager
      current_round current_messages w = (text, w') ->
    exists exchanges calls,
      api_calls w' = api_calls w ++ exchanges
      /\ tool_calls w' = tool_calls w ++ calls
      /\ model w' = model w
      /\ loop_trace (model w) system_content tools tool_manager n
           current_messages exchanges calls text.
Proof.
  induction n as [|n IH]; intros cr msgs w text w' Hn Hrun;
    rewrite tool_rounds_step in Hrun; case_decide; try lia;
    unfold bind in Hrun.
  - destruct (_make_api_call _ _ _ _ _) as [response w1] eqn:Hcall.
    apply make_api_call_run in Hcall as (Hapi & Htc & Hmo).
    injection Hrun as <- <-.
    exists [(api_params (model w) msgs system_content None false, response)], [].
    rewrite app_nil_r. split_and!; try done. constructor.
  - destruct (_make_api_call _ _ _ _ _) as [response w1] eqn:Hcall.
    apply make_api_call_run in Hcall as (Hapi & Htc & Hmo).
    destruct (String.eqb (stop_reason response) "tool_use") eqn:Hstop; simpl in Hrun.
    + destruct (truthy tool_manager) eqn:Htm; simpl in Hrun.
      * destruct (_execute_tools _ _ _) as [tool_results w2] eqn:Hexec.
        apply execute_tools_run in Hexec
          as (calls & Htc2 & Hapi2 & Hmo2 & Hex & Hres); [|done].
        apply IH in Hrun as (exchanges & calls' & Hapi3 & Htc3 & Hmo3 & Htr);
          [|lia].
        exists ((api_params (model w) msgs system_content tools true, response)
                  :: exchanges), (calls ++ calls').
        split_and!.
        -- rewrite Hapi3, Hapi2, Hapi, <- app_assoc. reflexivity.
        -- rewrite Htc3, Htc2, Htc, <- app_assoc. reflexivity.
        -- congruence.
        -- apply String.eqb_eq in Hstop.
           eapply trace_round; eauto.
           rewrite Hmo2, Hmo, build_messages_app in Htr. exact Htr.
      * injection Hrun as <- <-.
        eexists [_], []. rewrite app_nil_r. split_and!; try done.
        constructor. by right.
    + injection Hrun as <- <-.
      eexists [_], []. rewrite app_nil_r. split_and!; try done.
      constructor. left. by apply String.eqb_neq.
Qed.

(** *** Reading the records of a run *)

Lemma issued_app w w' (exchanges : list (Request * Response)) :
  api_calls w' = api_calls w ++ exchanges -> issued w w' = exchanges.
Proof. intros Heq. unfold issued. rewrite Heq. apply drop_app_length. Qed.

Lemma executed_app w w' (calls : list ToolCall) :
  tool_calls w' = tool_calls w ++ calls -> executed w w' = calls.
Proof. intros Heq. unfold executed. rewrite Heq. apply drop_app_length. Qed.

(** The first exchange of a trace carries the message list it started on. *)
Lemma trace_head self_model system_content tools tool_manager n
    (msgs : list Message) exchanges calls text :
  loop_trace self_model system_content tools tool_manager n msgs
    exchanges calls text ->
  exists req response rest,
    exchanges = (req, response) :: rest /\ req_messages req = msgs.
Proof. destruct 1; eauto. Qed.

(** Between two consecutive exchanges of a trace lies one completed tool
    round: its calls are a segment of the recorded calls, and the later
    request carries the earlier messages plus the two messages of the
    round. *)
Lemma trace_chain self_model system_content tools tool_manager n
    (msgs : list Message) exchanges calls text :
  loop_trace self_model system_content tools tool_manager n msgs
    exchanges calls text ->
  forall k req response req' response',
    exchanges !! k = Some (req, response) ->
    exchanges !! S k = Some (req', response') ->
    exists before these after,
      calls = before ++ these ++ after
      /\ Forall2 executed_as (tool_use_blocks response) these
      /\ req_messages req'
         = req_messages req
             ++ [assistant_message response;
                 tool_result_message
                   (zip_with result_of (tool_use_blocks response) these)].
Proof.
  induction 1 as [msgs r|n msgs r Hstop
                 |n msgs r calls results exchanges calls' text
                    Hstop Htm Hex Hres Htrace IH];
    intros k req response req' response' Hk HSk; try discriminate.
  destruct k as [|k].
  - injection Hk as <- <-. simpl in HSk.
    apply trace_head in Htrace as (q & r' & rest & -> & Hq).
    injection HSk as <- <-.
    exists [], calls, calls'. subst results. by rewrite Hq.
  - simpl in Hk, HSk.
    destruct (IH _ _ _ _ _ Hk HSk) as (before & these & after & -> & Hth & Hm).
    exists (calls ++ before), these, after.
    by rewrite <- app_assoc.
Qed.

(** The request at position [k] of a trace carries [2 * k] messages more
    than the loop started with. *)
Lemma trace_length self_model system_content tools tool_manager n
    (msgs : list Message) exchanges calls text :
  loop_trace self_model system_content tools tool_manager n msgs
    exchanges calls text ->
  forall k req response,
    exchanges !! k = Some (req, response) ->
    length (req_messages req) = length msgs + 2 * k.
Proof.
  induction 1 as [msgs r|n msgs r Hstop
                 |n msgs r calls results exchanges calls' text
                    Hstop Htm Hex Hres Htrace IH];
    intros k req response Hk.
  - destruct k; [|done]. injection Hk as <- <-. simpl. lia.
  - destruct k; [|done]. injection Hk as <- <-. simpl. lia.
  - destruct k as [|k].
    + injection Hk as <- <-. simpl. lia.
    + simpl in Hk. rewrite (IH _ _ _ Hk), length_app. simpl. lia.
Qed.

(** A trace holds at most one exchange more than there are rounds left. *)
Lemma trace_bound self_model system_content tools tool_manager n
    (msgs : list Message) exchanges calls text :
  loop_trace self_model system_content tools tool_manager n msgs
    exchanges calls text ->
  1 <= length exchanges <= S n.
Proof. induction 1; simpl; lia. Qed.

(** *** Runs of [generate_response] *)

Lemma generate_response_trace query history tools tool_manager w text w' :
  truthy tools = true ->
  generate_response query history tools tool_manager w = (text, w') ->
  loop_trace (model w) (system_content_for history) tools tool_manager
    MAX_TOOL_ROUNDS [{| role := "user"; msg_content := Text query |}]
    (issued w w') (executed w w') text.
Proof.
  intros Htools Hrun. unfold generate_response in Hrun.
  rewrite Htools in Hrun. unfold _run_tool_loop in Hrun.
  apply (tool_rounds_trace _ _ _ _ MAX_TOOL_ROUNDS) in Hrun
    as (exchanges & calls & Hapi & Htc & _ & Htrace); [|done].
  by rewrite (issued_app _ _ _ Hapi), (executed_app _ _ _ Htc).
Qed.

Lemma generate_response_no_tools query history tools tool_manager w text w' :
  truthy tools = false ->
  generate_response query history tools tool_manager w = (text, w') ->
  exists response,
    issued w w'
      = [(api_params (model w)
            [{| role := "user"; msg_content := Text query |}]
            (system_content_for history) None true, response)]
    /\ executed w w' = []
    /\ text = _extract_text_response response.
Proof.
  intros Htools Hrun. unfold generate_response in Hrun.
  rewrite Htools in Hrun. unfold bind in Hrun.
  destruct (_make_api_call _ _ _ _ _) as [response w1] eqn:Hcall.
  apply make_api_call_run in Hcall as (Hapi & Htc & _).
  injection Hrun as <- <-. exists response.
  rewrite (issued_app _ _ _ Hapi). split_and!; try done.
  apply executed_app. by rewrite app_nil_r.
Qed.

(** *** The round budget *)

(** C1.  With the budget of two rounds, a run given tools and a manager in
    which the responses of round 1 and round 2 both stop with [tool_use]
    issues exactly three requests: the first two carry the tool definitions
    with automatic tool choice, the third carries the accumulated messages
    and no tool definitions; the tools executed are those of the two
    in-budget responses and no others; and the text returned is the one
    extracted from the third response. *)
Theorem budget_exhausted_forces_one_final_request
    query history tools w text w' req1 response1 req2 response2 :
  truthy tools = true ->
  generate_response query history tools (Some the_manager) w = (text, w') ->
  issued w w' !! 0 = Some (req1, response1) ->
  issued w w' !! 1 = Some (req2, response2) ->
  stop_reason response1 = "tool_use" ->
  stop_reason response2 = "tool_use" ->
  MAX_TOOL_ROUNDS = 2
  /\ exists req3 response3 tool_results,
      issued w w' = [(req1, response1); (req2, response2); (req3, response3)]
      /\ (req_tools req1 = tools /\ req_tool_choice req1 = Some "auto")
      /\ (req_tools req2 = tools /\ req_tool_choice req2 = Some "auto")
      /\ (req_tools req3 = None /\ req_tool_choice req3 = None)
      /\ req_messages req3
         = req_messages req2
             ++ [assistant_message response2;
                 tool_result_message tool_results]
      /\ Forall2 executed_as
           (tool_use_blocks response1 ++ tool_use_blocks response2)
           (executed w w')
      /\ text = _extract_text_response response3.
Proof.
  intros Htools Hrun H1 H2 Hs1 Hs2. split; [done|].
  apply generate_response_trace in Hrun; [|done].
  revert H1 H2.
  inversion Hrun as [|? ? ? Hstop|? ? r1 calls1 results1 exs1 calls1' ?
                       _ _ Hex1 _ Hrest];
    subst; intros H1 H2; [done|].
  injection H1 as <- <-. simpl in H2.
  inversion Hrest as [|? ? ? Hstop|? ? r2 calls2 results2 exs2 calls2' ?
                        _ _ Hex2 _ Hlast];
    subst; injection H2 as <- <-.
  { destruct Hstop; [congruence|discriminate]. }
  inversion Hlast; subst.
  eexists _, _, _. split_and!; try reflexivity.
  - unfold api_params. simpl. by rewrite Htools.
  - unfold api_params. simpl. by rewrite Htools.
  - unfold api_params. simpl. by rewrite Htools.
  - unfold api_params. simpl. by rewrite Htools.
  - rewrite app_nil_r. by apply Forall2_app.
Qed.

(** C5.  In a run given tools, if the response of round [r], for [r] up to
    the last permitted round, stops with anything but [tool_use], then the
    run issues exactly [r] requests, every one of them carrying the tool
    definitions (no forced request without tools is made), the tools
    executed are those of the rounds before [r] only, and the text returned
    is the one extracted from that response. *)
Theorem normal_stop_returns_without_forced_request
    query history tools tool_manager w text w' r req response :
  truthy tools = true ->
  generate_response query history tools tool_manager w = (text, w') ->
  1 <= r <= MAX_TOOL_ROUNDS ->
  issued w w' !! (r - 1) = Some (req, response) ->
  stop_reason response <> "tool_use" ->
  length (issued w w') = r
  /\ text = _extract_text_response response
  /\ Forall (fun exchange =>
               req_tools exchange.1 = tools
               /\ req_tool_choice exchange.1 = Some "auto")
       (issued w w')
  /\ Forall2 executed_as
       (flat_map tool_use_blocks (take (r - 1) (map snd (issued w w'))))
       (executed w w').
Proof.
  intros Htools Hrun Hr Hk Hstop.
  apply generate_response_trace in Hrun; [|done].
  assert (Hsent : forall msgs,
             req_tools (api_params (model w) msgs (system_content_for history)
                          tools true) = tools
             /\ req_tool_choice
                  (api_params (model w) msgs (system_content_for history)
                     tools true) = Some "auto").
  { intros msgs. unfold api_params. simpl. by rewrite Htools. }
  unfold MAX_TOOL_ROUNDS in *.
  generalize dependent (executed w w').
  generalize dependent (issued w w').
  intros exchanges Hk calls Hrun.
  inversion Hrun as [|? ? r1 _|? ? r1 calls1 results1 exs1 calls1' ?
                       Hs1 _ Hex1 _ Hrest];
    subst.
  - destruct r as [|[|r]]; [lia| |done].
    injection Hk as <- <-.
    split_and!; [done|done| |constructor].
    repeat (apply List.Forall_cons; [apply Hsent|]). apply List.Forall_nil.
  - destruct r as [|[|[|r]]]; [lia| | |lia].
    { injection Hk as <- <-. congruence. }
    simpl in Hk.
    inversion Hrest as [|? ? r2 _|? ? r2 calls2 results2 exs2 calls2' ?
                          Hs2 _ Hex2 _ Hlast];
      subst.
    + injection Hk as <- <-.
      split_and!; [done|done| |].
      * repeat (apply List.Forall_cons; [apply Hsent|]). apply List.Forall_nil.
      * simpl. by rewrite !app_nil_r.
    + injection Hk as <- <-. congruence.
Qed.

(** C7.  In a run given tools but no manager, if the response of round 1
    stops with [tool_use], the run returns the text extracted from that
    same response, having issued that one request and executed no tool. *)
Theorem no_manager_returns_text_of_first_response
    query history tools w text w' req response :
  truthy tools = true ->
  generate_response query history tools None w = (text, w') ->
  issued w w' !! 0 = Some (req, response) ->
  stop_reason response = "tool_use" ->
  issued w w' = [(req, response)]
  /\ executed w w' = []
  /\ text = _extract_text_response response.
Proof.
  intros Htools Hrun Hk Hstop.
  apply generate_response_trace in Hrun; [|done].
  revert Hk.
  inversion Hrun as [| |? ? ? ? ? ? ? ? _ Htm]; subst; intros Hk.
  - by injection Hk as <- <-.
  - discriminate.
Qed.

(** *** Message accumulation and pairing *)

Lemma messages_accumulate_chain query history tools tool_manager w text w' :
  generate_response query history tools tool_manager w = (text, w') ->
  forall k req response req' response',
    issued w w' !! k = Some (req, response) ->
    issued w w' !! S k = Some (req', response') ->
    exists before calls after,
      executed w w' = before ++ calls ++ after
      /\ Forall2 executed_as (tool_use_blocks response) calls
      /\ req_messages req'
         = req_messages req
             ++ [assistant_message response;
                 tool_result_message
                   (zip_with result_of (tool_use_blocks response) calls)].
Proof.
  intros Hrun. destruct (truthy tools) eqn:Htools.
  - apply generate_response_trace in Hrun; [|done].
    intros k req response req' response' Hk HSk.
    exact (trace_chain _ _ _ _ _ _ _ _ _ Hrun _ _ _ _ _ Hk HSk).
  - apply generate_response_no_tools in Hrun as (response & -> & _ & _);
      [|done].
    intros k ? ? ? ? _ HSk. done.
Qed.

(** C2.  In every run, the first request carries the single user message
    holding the query; whenever a request is followed by another one, the
    later message list is the earlier one followed by exactly two messages,
    the assistant message with the content of the response and a user
    message with the results of the tools of that response, in order; hence
    request [i], counted from 1, carries [1 + 2 * (i - 1)] messages. *)
Theorem messages_accumulate_two_per_round
    query history tools tool_manager w text w' :
  generate_response query history tools tool_manager w = (text, w') ->
  (exists req response,
      issued w w' !! 0 = Some (req, response)
      /\ req_messages req = [{| role := "user"; msg_content := Text query |}])
  /\ (forall k req response req' response',
        issued w w' !! k = Some (req, response) ->
        issued w w' !! S k = Some (req', response') ->
        exists before calls after,
          executed w w' = before ++ calls ++ after
          /\ Forall2 executed_as (tool_use_blocks response) calls
          /\ req_messages req'
             = req_messages req
                 ++ [{| role := "assistant";
                        msg_content := Blocks (content response) |};
                     {| role := "user";
                        msg_content :=
                          ToolResults
                            (zip_with result_of
                               (tool_use_blocks response) calls) |}])
  /\ (forall i req response,
        1 <= i ->
        issued w w' !! (i - 1) = Some (req, response) ->
        length (req_messages req) = 1 + 2 * (i - 1)).
Proof.
  intros Hrun0. pose proof Hrun0 as Hrun.
  destruct (truthy tools) eqn:Htools.
  - apply generate_response_trace in Hrun; [|done]. split_and!.
    + apply trace_head in Hrun as (req & response & rest & -> & Hreq). eauto.
    + apply (messages_accumulate_chain _ _ _ _ _ _ _ Hrun0).
    + intros i req response _ Hi.
      by rewrite (trace_length _ _ _ _ _ _ _ _ _ Hrun _ _ _ Hi).
  - apply generate_response_no_tools in Hrun as (response & -> & _ & _);
      [|done].
    split_and!.
    + eauto.
    + intros k ? ? ? ? _ HSk. done.
    + intros i req r _ Hi.
      destruct (i - 1) eqn:Ei; [|done]. by injection Hi as <- <-.
Qed.

(** The identifiers of the results follow those of the executed blocks,
    whatever the manager passed. *)
Lemma execute_blocks_ids tool_manager (blocks : list ContentBlock) :
  forall tool_results w,
    map tool_use_id (execute_blocks tool_manager blocks tool_results w).1
    = map tool_use_id tool_results
        ++ map block_id
             (List.filter
                (fun b => String.eqb (block_type b) "tool_use") blocks).
Proof.
  induction blocks as [|block rest IH]; intros acc w; simpl.
  - by rewrite app_nil_r.
  - destruct (String.eqb (block_type block) "tool_use"); [|apply IH].
    unfold bind. destruct (try_execute_tool _ _ _ _) as [outcome w1].
    rewrite IH, map_app, <- app_assoc. reflexivity.
Qed.

(** C3.  [_execute_tools] answers a response holding [n] blocks of type
    [tool_use] with exactly [n] tool results, in the order of the blocks,
    each carrying the identifier of its block, whether the executions
    return or raise; and in every run, a response that was executed is
    followed, in the next request, by the assistant message and then a user
    message holding exactly these results. *)
Theorem one_result_per_tool_use_block :
  (forall response tool_manager w,
      let tool_results := (_execute_tools response tool_manager w).1 in
      length tool_results = length (tool_use_blocks response)
      /\ map tool_use_id tool_results
         = map block_id (tool_use_blocks response))
  /\ (forall query history tools tool_manager w k req response req' response',
        issued w (generate_response query history tools tool_manager w).2 !! k
          = Some (req, response) ->
        issued w (generate_response query history tools tool_manager w).2
          !! S k = Some (req', response') ->
        exists earlier tool_results,
          req_messages req'
          = earlier ++ [{| role := "assistant";
                           msg_content := Blocks (content response) |};
                        {| role := "user";
                           msg_content := ToolResults tool_results |}]
          /\ length tool_results = length (tool_use_blocks response)
          /\ forall i block,
               tool_use_blocks response !! i = Some block ->
               exists tool_result,
                 tool_results !! i = Some tool_result
                 /\ result_type tool_result = "tool_result"
                 /\ tool_use_id tool_result = block_id block).
Proof.
  split.
  - intros response tool_manager w tool_results.
    assert (Hids : map tool_use_id tool_results
                   = map block_id (tool_use_blocks response)).
    { subst tool_results. unfold _execute_tools.
      by rewrite execute_blocks_ids. }
    split; [|done].
    by rewrite <- (length_map tool_use_id), Hids, length_map.
  - intros query history tools tool_manager w k req response req' response'.
    destruct (generate_response _ _ _ _ w) as [text w'] eqn:Hrun. simpl.
    intros Hk HSk.
    destruct (messages_accumulate_chain _ _ _ _ _ _ _ Hrun _ _ _ _ _ Hk HSk)
      as (before & calls & after & _ & Hex & Hmsgs).
    eexists _, _. split; [exact Hmsgs|].
    pose proof (Forall2_length _ _ _ Hex) as Hlen.
    split.
    + rewrite length_zip_with. lia.
    + intros i block Hi.
      destruct (calls !! i) as [call|] eqn:Hcall.
      * exists (result_of block call). split_and!; try done.
        by rewrite lookup_zip_with, Hi; simpl; rewrite Hcall.
      * apply lookup_ge_None in Hcall. apply lookup_lt_Some in Hi. lia.
Qed.

(** *** Containment of tool errors *)

(** After a response that stops with [tool_use], with a manager at hand and
    rounds left, the trace goes on with another exchange. *)
Lemma trace_continues self_model system_content tools tool_manager n
    (msgs : list Message) exchanges calls text :
  loop_trace self_model system_content tools tool_manager n msgs
    exchanges calls text ->
  truthy tool_manager = true ->
  forall k req response,
    k < n ->
    exchanges !! k = Some (req, response) ->
    stop_reason response = "tool_use" ->
    is_Some (exchanges !! S k).
Proof.
  induction 1 as [msgs r|n msgs r Hstop
                 |n msgs r calls results exchanges calls' text
                    Hstop Htm Hex Hres Htrace IH];
    intros Hmanager k req response Hlt Hk Htool.
  - lia.
  - destruct k; [|done]. injection Hk as <- <-.
    destruct Hstop; congruence.
  - destruct k as [|k]; simpl.
    + apply trace_head in Htrace as (q & r' & rest & -> & _). by eexists.
    + simpl in Hk. eapply IH; eauto. lia.
Qed.

(** *** Without tools *)

Lemma first_text_found (pre post : list ContentBlock) block :
  Forall (fun b => block_type b <> "text") pre ->
  block_type block = "text" ->
  first_text (pre ++ block :: post) = block_text block.
Proof.
  intros Hpre Hblock. induction Hpre as [|b pre Hb _ IH]; simpl.
  - by rewrite Hblock.
  - apply String.eqb_neq in Hb. by rewrite Hb.
Qed.

Lemma first_text_none (blocks : list ContentBlock) :
  Forall (fun b => block_type b <> "text") blocks ->
  first_text blocks = "".
Proof.
  induction 1 as [|b blocks Hb _ IH]; simpl; [done|].
  apply String.eqb_neq in Hb. by rewrite Hb.
Qed.

(** C6.  Called without tool definitions ([None] or the empty list),
    [generate_response] issues exactly one request, which carries neither
    [tools] nor [tool_choice], executes no tool, and returns the text of the
    first block of type [text] of the response, or the empty string when
    the response has no such block. *)
Theorem without_tools_single_request
    query history tools tool_manager w text w' :
  tools = None \/ tools = Some [] ->
  generate_response query history tools tool_manager w = (text, w') ->
  exists req response,
    issued w w' = [(req, response)]
    /\ req_tools req = None
    /\ req_tool_choice req = None
    /\ executed w w' = []
    /\ text = _extract_text_response response
    /\ (forall pre block post,
          content response = pre ++ block :: post ->
          Forall (fun b => block_type b <> "text") pre ->
          block_type block = "text" ->
          text = block_text block)
    /\ (Forall (fun b => block_type b <> "text") (content response) ->
        text = "").
Proof.
  intros Htools Hrun.
  apply generate_response_no_tools in Hrun as (response & Hiss & Hex & ->);
    [|by destruct Htools as [-> | ->]].
  eexists _, response. split_and!; try done.
  - intros pre block post Hcontent Hpre Hblock.
    unfold _extract_text_response. rewrite Hcontent.
    by apply first_text_found.
  - apply first_text_none.
Qed.

(** *** Conversation history *)

(** Every request of a trace carries the system content the loop was
    given. *)
Lemma trace_system self_model system_content tools tool_manager n
    (msgs : list Message) exchanges calls text :
  loop_trace self_model system_content tools tool_manager n msgs
    exchanges calls text ->
  Forall (fun exchange => req_system exchange.1 = system_content) exchanges.
Proof.
  induction 1; repeat (apply List.Forall_cons; [done|]);
    done || apply List.Forall_nil.
Qed.

(** C9.  The empty string is no history: for [None] and for the empty
    string alike the system content is the bare [SYSTEM_PROMPT], which
    holds no section [Previous conversation:]; the two runs are the same,
    and every request they issue carries that system content. *)
Theorem empty_history_is_no_history :
  system_content_for None = SYSTEM_PROMPT
  /\ system_content_for (Some "") = SYSTEM_PROMPT
  /\ is_substring "Previous conversation:" SYSTEM_PROMPT = false
  /\ forall query history tools tool_manager w,
       history = None \/ history = Some "" ->
       generate_response query history tools tool_manager w
       = generate_response query None tools tool_manager w
       /\ Forall (fun exchange => req_system exchange.1 = SYSTEM_PROMPT)
            (issued w
               (generate_response query history tools tool_manager w).2).
Proof.
  split_and!; [done|done|by vm_compute|].
  intros query history tools tool_manager w Hhistory.
  assert (Hsys : system_content_for history = SYSTEM_PROMPT)
    by (by destruct Hhistory as [-> | ->]).
  split; [by destruct Hhistory as [-> | ->]|].
  destruct (generate_response _ history _ _ w) as [text w'] eqn:Hrun. simpl.
  destruct (truthy tools) eqn:Htools.
  - apply generate_response_trace in Hrun; [|done].
    rewrite <- Hsys. by eapply trace_system.
  - apply generate_response_no_tools in Hrun as (response & -> & _ & _);
      [|done].
    apply List.Forall_cons; [exact Hsys|apply List.Forall_nil].
Qed.

(** *** A tool round without tool blocks *)

Lemma execute_no_blocks tool_manager (blocks : list ContentBlock) :
  List.filter (fun b => String.eqb (block_type b) "tool_use") blocks = [] ->
  forall tool_results w,
    execute_blocks tool_manager blocks tool_results w = (tool_results, w).
Proof.
  induction blocks as [|block rest IH]; intros Hnone acc w; simpl; [done|].
  simpl in Hnone.
  destruct (String.eqb (block_type block) "tool_use"); [done|by apply IH].
Qed.

(** The request at position [k] of a trace carries the tool definitions
    while rounds are left, and none once the budget is spent. *)
Lemma trace_tools self_model system_content tools tool_manager n
    (msgs : list Message) exchanges calls text :
  loop_trace self_model system_content tools tool_manager n msgs
    exchanges calls text ->
  truthy tools = true ->
  forall k req response,
    exchanges !! k = Some (req, response) ->
    if decide (k < n)
    then req_tools req = tools /\ req_tool_choice req = Some "auto"
    else req_tools req = None /\ req_tool_choice req = None.
Proof.
  intros Htrace Htools.
  induction Htrace as [msgs r|n msgs r Hstop
                      |n msgs r calls results exchanges calls' text
                         Hstop Htm Hex Hres Htrace IH];
    intros k req response Hk.
  - destruct k; [|done]. by injection Hk as <- <-.
  - destruct k; [|done]. injection Hk as <- <-.
    case_decide; [|lia]. unfold api_params. simpl. by rewrite Htools.
  - destruct k as [|k].
    + injection Hk as <- <-.
      case_decide; [|lia]. unfold api_params. simpl. by rewrite Htools.
    + simpl in Hk. specialize (IH _ _ _ Hk).
      repeat case_decide; done || lia.
Qed.

(** C10.  An in-budget response that stops with [tool_use] but holds no
    block of type [tool_use] still uses up its round when a manager is at
    hand: the loop carries on from the next value of the round counter with
    the assistant message and a user message holding the empty list of
    results appended, and issues the next request with these messages.  In
    a run this next request carries the tool definitions only if a round is
    still left after the one consumed. *)
Theorem empty_tool_round_is_consumed :
  (forall system_content tools current_round current_messages w
          response w1,
      current_round < MAX_TOOL_ROUNDS ->
      _make_api_call current_messages system_content tools true w
        = (response, w1) ->
      stop_reason response = "tool_use" ->
      tool_use_blocks response = [] ->
      let appended :=
        current_messages
          ++ [{| role := "assistant";
                 msg_content := Blocks (content response) |};
              {| role := "user"; msg_content := ToolResults [] |}] in
      let continued :=
        tool_rounds MAX_TOOL_ROUNDS system_content tools (Some the_manager)
          (current_round + 1) appended w1 in
      tool_rounds MAX_TOOL_ROUNDS system_content tools (Some the_manager)
        current_round current_messages w = continued
      /\ tool_calls w1 = tool_calls w
      /\ exists req' response' rest,
           issued w1 continued.2 = (req', response') :: rest
           /\ req_messages req' = appended)
  /\ (forall query history tools w text w' k req response,
        truthy tools = true ->
        generate_response query history tools (Some the_manager) w
          = (text, w') ->
        k < MAX_TOOL_ROUNDS ->
        issued w w' !! k = Some (req, response) ->
        stop_reason response = "tool_use" ->
        tool_use_blocks response = [] ->
        exists req' response',
          issued w w' !! S k = Some (req', response')
          /\ req_messages req'
             = req_messages req
                 ++ [{| role := "assistant";
                        msg_content := Blocks (content response) |};
                     {| role := "user"; msg_content := ToolResults [] |}]
          /\ (S k < MAX_TOOL_ROUNDS -> req_tools req' = tools)
          /\ (S k = MAX_TOOL_ROUNDS -> req_tools req' = None)).
Proof.
  split.
  - intros system_content tools cr msgs w response w1 Hlt Hcall Hstop Hnone
      appended continued.
    split_and!.
    + rewrite tool_rounds_step. case_decide; [|lia].
      unfold bind at 1. rewrite Hcall, Hstop. simpl.
      unfold bind, _execute_tools.
      rewrite (execute_no_blocks _ _ Hnone), build_messages_app.
      reflexivity.
    + by apply make_api_call_run in Hcall as (_ & ? & _).
    + destruct continued as [text w'] eqn:Hrun. subst continued.
      apply (tool_rounds_trace _ _ _ _ _ _ _ _ _ _ eq_refl) in Hrun
        as (exchanges & calls & Hapi & _ & _ & Htrace).
      apply trace_head in Htrace as (req' & response' & rest & -> & Hreq).
      simpl. rewrite (issued_app _ _ _ Hapi). eauto.
  - intros query history tools w text w' k req response
      Htools Hrun Hlt Hk Hstop Hnone.
    pose proof (generate_response_trace _ _ _ _ _ _ _ Htools Hrun) as Htrace.
    destruct (trace_continues _ _ _ _ _ _ _ _ _ Htrace eq_refl _ _ _
                Hlt Hk Hstop) as [[req' response'] Hnext].
    exists req', response'. split; [done|].
    destruct (messages_accumulate_chain _ _ _ _ _ _ _ Hrun _ _ _ _ _ Hk Hnext)
      as (before & calls & after & _ & _ & Hmsgs).
    rewrite Hnone in Hmsgs. simpl in Hmsgs.
    split; [exact Hmsgs|].
    pose proof (trace_tools _ _ _ _ _ _ _ _ _ Htrace Htools _ _ _ Hnext)
      as Hsent.
    case_decide; split; intros; (lia || tauto).
Qed.

End Properties.

(** ** The tool manager *)

(** C8.  On a name that is not registered, [execute_tool] of the manager
    returns the text [Tool '<name>' not found] and leaves the manager as it
    is; it does not raise. *)
Theorem unknown_tool_is_reported (tm : ToolManager) (name : string)
    (input : kwargs) :
  tools tm !! name = None ->
  ToolManager_execute_tool tm name input
  = (tm, Returns ("Tool '" +:+ name +:+ "' not found")).
Proof. intros Hname. unfold ToolManager_execute_tool. by rewrite Hname. Qed.

(** The empty manager of the test-suite, asked for [unknown_tool]. *)
Lemma unknown_tool_is_reported_witness :
  tools empty_manager !! "unknown_tool" = None
  /\ ToolManager_execute_tool empty_manager "unknown_tool" ∅
     = (empty_manager, Returns "Tool 'unknown_tool' not found").
Proof.
  split; [reflexivity|].
  apply (unknown_tool_is_reported empty_manager "unknown_tool" ∅).
  reflexivity.
Defined.

(** ** The theorems at work on the scenarios *)

(** Two tool rounds, the first of which fails, then the forced answer. *)
Lemma budget_exhausted_witness :
  exists req1 req2,
    issued exhausted_world exhausted_run.2 !! 0 = Some (req1, round1_response)
    /\ issued exhausted_world exhausted_run.2 !! 1
       = Some (req2, round2_response)
    /\ stop_reason round1_response = "tool_use"
    /\ stop_reason round2_response = "tool_use"
    /\ exists req3 response3,
         issued exhausted_world exhausted_run.2
           = [(req1, round1_response); (req2, round2_response);
              (req3, response3)]
         /\ req_tools req3 = None
         /\ exhausted_run.1 = _extract_text_response response3.
Proof.
  assert (Hrun : generate_response "Question" None (Some test_tools)
                   (Some the_manager) exhausted_world
                 = (exhausted_run.1, exhausted_run.2))
    by (vm_compute; reflexivity).
  eexists _, _.
  split; [vm_compute; reflexivity|]. split; [vm_compute; reflexivity|].
  split; [reflexivity|]. split; [reflexivity|].
  destruct (budget_exhausted_forces_one_final_request
              "Question" None (Some test_tools) exhausted_world
              exhausted_run.1 exhausted_run.2 _ _ _ _
              eq_refl Hrun eq_refl eq_refl eq_refl eq_refl)
    as (_ & req3 & response3 & results & Hissued & _ & _ & [Hnone _] & _
        & _ & Htext).
  exists req3, response3. auto.
Defined.

(** Round 2 ends normally: two requests, no forced one. *)
Lemma normal_stop_witness :
  1 <= 2 <= MAX_TOOL_ROUNDS
  /\ stop_reason final_response <> "tool_use"
  /\ length (issued two_round_world two_round_run.2) = 2
  /\ two_round_run.1 = _extract_text_response final_response.
Proof.
  assert (Hrun : generate_response "Question" None (Some test_tools)
                   (Some the_manager) two_round_world
                 = (two_round_run.1, two_round_run.2))
    by (vm_compute; reflexivity).
  assert (Hr : 1 <= 2 <= MAX_TOOL_ROUNDS) by (unfold MAX_TOOL_ROUNDS; lia).
  assert (Hstop : stop_reason final_response <> "tool_use") by discriminate.
  split; [exact Hr|]. split; [exact Hstop|].
  destruct (normal_stop_returns_without_forced_request
              "Question" None (Some test_tools) (Some the_manager)
              two_round_world two_round_run.1 two_round_run.2
              2 _ final_response eq_refl Hrun Hr eq_refl Hstop)
    as (Hlen & Htext & _).
  auto.
Defined.

(** Tools but no manager: the text of the first response. *)
Lemma no_manager_witness :
  stop_reason round1_response = "tool_use"
  /\ exists req,
       issued no_manager_world no_manager_run.2 = [(req, round1_response)]
       /\ executed no_manager_world no_manager_run.2 = []
       /\ no_manager_run.1 = _extract_text_response round1_response.
Proof.
  split; [reflexivity|]. eexists.
  apply (no_manager_returns_text_of_first_response
           "Question" None (Some test_tools) no_manager_world
           no_manager_run.1 no_manager_run.2);
    vm_compute; reflexivity.
Defined.

(** The third request of the exhausted run carries five messages. *)
Lemma messages_accumulate_witness :
  exists req3,
    issued exhausted_world exhausted_run.2 !! (3 - 1)
    = Some (req3, final_response)
    /\ length (req_messages req3) = 1 + 2 * (3 - 1).
Proof.
  assert (Hrun : generate_response "Question" None (Some test_tools)
                   (Some the_manager) exhausted_world
                 = (exhausted_run.1, exhausted_run.2))
    by (vm_compute; reflexivity).
  eexists. split; [vm_compute; reflexivity|].
  destruct (messages_accumulate_two_per_round
              "Question" None (Some test_tools) (Some the_manager)
              exhausted_world exhausted_run.1 exhausted_run.2 Hrun)
    as (_ & _ & Hlen).
  apply (Hlen 3 _ final_response); [lia|vm_compute; reflexivity].
Defined.

(** The failed outline call of round 1 is paired with its result in the
    second request. *)
Lemma one_result_per_block_witness :
  exists req req' earlier tool_results,
    issued exhausted_world exhausted_run.2 !! 0 = Some (req, round1_response)
    /\ issued exhausted_world exhausted_run.2 !! 1
       = Some (req', round2_response)
    /\ req_messages req'
       = earlier ++ [{| role := "assistant";
                        msg_content := Blocks (content round1_response) |};
                     {| role := "user";
                        msg_content := ToolResults tool_results |}]
    /\ length tool_results = length (tool_use_blocks round1_response).
Proof.
  evar (req : Request). evar (req' : Request).
  assert (H0 : issued exhausted_world exhausted_run.2 !! 0
               = Some (req, round1_response))
    by (subst req; vm_compute; reflexivity).
  assert (H1 : issued exhausted_world exhausted_run.2 !! 1
               = Some (req', round2_response))
    by (subst req'; vm_compute; reflexivity).
  destruct (proj2 one_result_per_tool_use_block
              "Question" None (Some test_tools) (Some the_manager)
              exhausted_world 0 req round1_response req' round2_response
              H0 H1)
    as (earlier & tool_results & Hmsgs & Hlen & _).
  exists req, req', earlier, tool_results. auto.
Defined.

(** The direct answer of a call without tools. *)
Lemma without_tools_witness :
  (@None (list ToolDef) = None \/ None = Some (@nil ToolDef))
  /\ exists req response,
       issued direct_world direct_run.2 = [(req, response)]
       /\ req_tools req = None
       /\ direct_run.1 = _extract_text_response response.
Proof.
  assert (Hrun : generate_response "What is Python?" None None None
                   direct_world = (direct_run.1, direct_run.2))
    by (vm_compute; reflexivity).
  assert (Htools : @None (list ToolDef) = None \/ None = Some (@nil ToolDef))
    by (by left).
  split; [exact Htools|].
  destruct (without_tools_single_request
              "What is Python?" None None None direct_world
              direct_run.1 direct_run.2 Htools Hrun)
    as (req & response & Hissued & Hnone & _ & _ & Htext & _).
  exists req, response. auto.
Defined.

(** The empty history and no history give the same run. *)
Lemma empty_history_witness :
  (Some "" = @None string \/ Some "" = Some "")
  /\ generate_response "What is Python?" (Some "") None None direct_world
     = generate_response "What is Python?" None None None direct_world.
Proof.
  assert (Hh : Some "" = @None string \/ Some "" = Some "") by (by right).
  split; [exact Hh|].
  destruct (@empty_history_is_no_history ScriptedClient ToolManager _ _)
    as (_ & _ & _ & Hruns).
  apply (Hruns "What is Python?" (Some "") None None direct_world Hh).
Defined.

(** A response that stops with [tool_use] without tool blocks uses up
    round 1; the next request carries the two appended messages. *)
Lemma empty_tool_round_witness :
  exists req req' response',
    issued hollow_world hollow_run.2 !! 0 = Some (req, hollow_tool_use)
    /\ tool_use_blocks hollow_tool_use = []
    /\ issued hollow_world hollow_run.2 !! 1 = Some (req', response')
    /\ req_messages req'
       = req_messages req
           ++ [{| role := "assistant";
                  msg_content := Blocks (content hollow_tool_use) |};
               {| role := "user"; msg_content := ToolResults [] |}].
Proof.
  assert (Hrun : generate_response "Question" None (Some test_tools)
                   (Some the_manager) hollow_world
                 = (hollow_run.1, hollow_run.2))
    by (vm_compute; reflexivity).
  assert (Hlt : 0 < MAX_TOOL_ROUNDS) by (unfold MAX_TOOL_ROUNDS; lia).
  evar (req : Request).
  assert (H0 : issued hollow_world hollow_run.2 !! 0
               = Some (req, hollow_tool_use))
    by (subst req; vm_compute; reflexivity).
  destruct (proj2 empty_tool_round_is_consumed
              "Question" None (Some test_tools) hollow_world
              hollow_run.1 hollow_run.2 0 req hollow_tool_use
              eq_refl Hrun Hlt H0 eq_refl eq_refl)
    as (req' & response' & Hnext & Hmsgs & _).
  exists req, req', response'. auto.
Defined.

(** ** Invariants of every run *)

Section Invariants.

Context {L M : Type} `{LLMClient L} `{ToolExecutor M}.

Implicit Types (w : World L M) (response : Response).

(** Every run is a trace of the loop: with tools, one with the whole budget
    left; without tools, the single request of a spent budget. *)
Lemma generate_response_any_trace query history tools tool_manager w text w' :
  generate_response query history tools tool_manager w = (text, w') ->
  loop_trace (model w) (system_content_for history) tools tool_manager
    (if truthy tools then MAX_TOOL_ROUNDS else 0)
    [{| role := "user"; msg_content := Text query |}]
    (issued w w') (executed w w') text.
Proof.
  intros Hrun. destruct (truthy tools) eqn:Htools.
  - by apply generate_response_trace.
  - apply generate_response_no_tools in Hrun as (response & -> & -> & ->);
      [|done].
    apply trace_forced.
Qed.

Lemma trace_last self_model system_content tools tool_manager n
    (msgs : list Message) exchanges calls text :
  loop_trace self_model system_content tools tool_manager n msgs
    exchanges calls text ->
  exists req response,
    last exchanges = Some (req, response)
    /\ text = _extract_text_response response.
Proof.
  induction 1 as [msgs r|n msgs r Hstop
                 |n msgs r calls results exchanges calls' text
                    Hstop Htm Hex Hres Htrace IH]; [by eauto..|].
  destruct IH as (req & response & Hlast & Htext).
  exists req, response. split; [|done].
  rewrite last_cons, Hlast. reflexivity.
Qed.

Lemma trace_executed self_model system_content tools tool_manager n
    (msgs : list Message) exchanges calls text :
  loop_trace self_model system_content tools tool_manager n msgs
    exchanges calls text ->
  Forall2 executed_as
    (flat_map tool_use_blocks (removelast (map snd exchanges))) calls.
Proof.
  induction 1 as [msgs r|n msgs r Hstop
                 |n msgs r calls results exchanges calls' text
                    Hstop Htm Hex Hres Htrace IH]; [constructor..|].
  apply trace_head in Htrace as (q & r' & rest & -> & _).
  change (removelast (map snd ((api_params self_model msgs system_content
                                  tools true, r) :: (q, r') :: rest)))
    with (r :: removelast (map snd ((q, r') :: rest))).
  simpl flat_map. by apply Forall2_app.
Qed.

Lemma trace_roles self_model system_content tools tool_manager n
    (msgs : list Message) exchanges calls text :
  loop_trace self_model system_content tools tool_manager n msgs
    exchanges calls text ->
  forall k req response,
    exchanges !! k = Some (req, response) ->
    map role (req_messages req)
    = map role msgs ++ concat (replicate k ["assistant"; "user"]).
Proof.
  induction 1 as [msgs r|n msgs r Hstop
                 |n msgs r calls results exchanges calls' text
                    Hstop Htm Hex Hres Htrace IH];
    intros k req response Hk.
  - destruct k; [|done]. injection Hk as <- <-. simpl. by rewrite app_nil_r.
  - destruct k; [|done]. injection Hk as <- <-. simpl. by rewrite app_nil_r.
  - destruct k as [|k].
    + injection Hk as <- <-. simpl. by rewrite app_nil_r.
    + simpl in Hk. rewrite (IH _ _ _ Hk), map_app, <- app_assoc.
      reflexivity.
Qed.

Lemma trace_position self_model system_content tools tool_manager n
    (msgs : list Message) exchanges calls text :
  loop_trace self_model system_content tools tool_manager n msgs
    exchanges calls text ->
  forall k exchange, exchanges !! k = Some exchange -> k <= n.
Proof.
  intros Htrace k exchange Hk.
  apply trace_bound in Htrace. apply lookup_lt_Some in Hk. lia.
Qed.


Lemma trace_requests self_model system_content tools tool_manager n
    (msgs : list Message) exchanges calls text :
  loop_trace self_model system_content tools tool_manager n msgs
    exchanges calls text ->
  Forall (fun exchange =>
            req_model exchange.1 = self_model
            /\ req_temperature exchange.1 = 0%Z
            /\ req_max_tokens exchange.1 = 800%Z
            /\ req_system exchange.1 = system_content
            /\ ((req_tools exchange.1 = None
                 /\ req_tool_choice exchange.1 = None)
                \/ (truthy tools = true
                    /\ req_tools exchange.1 = tools
                    /\ req_tool_choice exchange.1 = Some "auto")))
    exchanges.
Proof.
  assert (Hsent : forall msgs',
             let req := api_params self_model msgs' system_content tools true
             in (req_tools req = None /\ req_tool_choice req = None)
                \/ (truthy tools = true /\ req_tools req = tools
                    /\ req_tool_choice req = Some "auto")).
  { intros msgs'. unfold api_params. simpl.
    destruct (truthy tools); simpl; auto. }
  induction 1 as [msgs r|n msgs r Hstop
                 |n msgs r calls results exchanges calls' text
                    Hstop Htm Hex Hres Htrace IH].
  - apply List.Forall_cons; [|apply List.Forall_nil].
    split_and!; try done. by left.
  - apply List.Forall_cons; [|apply List.Forall_nil].
    split_and!; try done. apply Hsent.
  - apply List.Forall_cons; [|exact IH].
    split_and!; try done. apply Hsent.
Qed.

Lemma trace_prefix self_model system_content tools tool_manager n
    (msgs : list Message) exchanges calls text :
  loop_trace self_model system_content tools tool_manager n msgs
    exchanges calls text ->
  forall k req response,
    exchanges !! k = Some (req, response) ->
    msgs `prefix_of` req_messages req.
Proof.
  induction 1 as [msgs r|n msgs r Hstop
                 |n msgs r calls results exchanges calls' text
                    Hstop Htm Hex Hres Htrace IH];
    intros k req response Hk.
  - destruct k; [|done]. by injection Hk as <- <-.
  - destruct k; [|done]. by injection Hk as <- <-.
  - destruct k as [|k].
    + by injection Hk as <- <-.
    + simpl in Hk. etrans; [|exact (IH _ _ _ Hk)]. by apply prefix_app_r.
Qed.

Lemma trace_prefixes self_model system_content tools tool_manager n
    (msgs : list Message) exchanges calls text :
  loop_trace self_model system_content tools tool_manager n msgs
    exchanges calls text ->
  forall j k req response req' response',
    j <= k ->
    exchanges !! j = Some (req, response) ->
    exchanges !! k = Some (req', response') ->
    req_messages req `prefix_of` req_messages req'.
Proof.
  induction 1 as [msgs r|n msgs r Hstop
                 |n msgs r calls results exchanges calls' text
                    Hstop Htm Hex Hres Htrace IH];
    intros j k req response req' response' Hjk Hj Hk.
  - destruct k; [|done]. destruct j; [|lia].
    injection Hj as <- <-. by injection Hk as <- <-.
  - destruct k; [|done]. destruct j; [|lia].
    injection Hj as <- <-. by injection Hk as <- <-.
  - destruct j as [|j].
    + injection Hj as <- <-. destruct k as [|k].
      * by injection Hk as <- <-.
      * simpl in Hk. simpl.
        etrans; [|exact (trace_prefix _ _ _ _ _ _ _ _ _ Htrace _ _ _ Hk)].
        by apply prefix_app_r.
    + destruct k as [|k]; [lia|]. simpl in Hj, Hk.
      eapply IH; [|exact Hj|exact Hk]. lia.
Qed.

(** *** Bounds and shape of a run *)

(** X1.  Whatever the LLM and the tools do, a call of [generate_response]
    issues at least one request and at most one more than the round
    budget. *)
Theorem run_issues_one_to_three_requests
    query history tools tool_manager w :
  1 <= length (issued w (generate_response query history tools
                           tool_manager w).2)
    <= MAX_TOOL_ROUNDS + 1.
Proof.
  destruct (generate_response _ _ _ _ w) as [text w'] eqn:Hrun. simpl.
  apply generate_response_any_trace, trace_bound in Hrun.
  destruct (truthy tools); unfold MAX_TOOL_ROUNDS in *; lia.
Qed.

(** X2.  The text a run returns is always the one extracted from the
    response to the last request it issued. *)
Theorem text_is_extracted_from_last_response
    query history tools tool_manager w :
  exists req response,
    last (issued w (generate_response query history tools
                      tool_manager w).2) = Some (req, response)
    /\ (generate_response query history tools tool_manager w).1
       = _extract_text_response response.
Proof.
  destruct (generate_response _ _ _ _ w) as [text w'] eqn:Hrun. simpl.
  by apply generate_response_any_trace, trace_last in Hrun.
Qed.

(** X3.  The tool calls of a run are the executions, in order, of the
    [tool_use] blocks of every response but the last: each of these blocks
    is executed exactly once, and the blocks of the last response never
    are. *)
Theorem tools_of_all_but_last_response_are_executed
    query history tools tool_manager w :
  Forall2 executed_as
    (flat_map tool_use_blocks
       (removelast
          (map snd (issued w (generate_response query history tools
                                tool_manager w).2))))
    (executed w (generate_response query history tools tool_manager w).2).
Proof.
  destruct (generate_response _ _ _ _ w) as [text w'] eqn:Hrun. simpl.
  by apply generate_response_any_trace, trace_executed in Hrun.
Qed.

(** X4.  In every request of a run the roles of the messages alternate:
    the user message of the query, then one assistant message and one user
    message for each tool round completed so far. *)
Theorem roles_alternate_from_user_to_user
    query history tools tool_manager w text w' k req response :
  generate_response query history tools tool_manager w = (text, w') ->
  issued w w' !! k = Some (req, response) ->
  map role (req_messages req)
  = "user" :: concat (replicate k ["assistant"; "user"]).
Proof.
  intros Hrun Hk. apply generate_response_any_trace in Hrun.
  exact (trace_roles _ _ _ _ _ _ _ _ _ Hrun _ _ _ Hk).
Qed.

(** X5.  Every request of a run carries the model of the generator,
    temperature 0, at most 800 tokens and the same system content, the one
    built from the history; and it carries either neither [tools] nor
    [tool_choice], or the tool definitions it was given, which are then not
    empty, together with the automatic tool choice. *)
Theorem requests_keep_base_parameters
    query history tools tool_manager w :
  Forall (fun exchange =>
            req_model exchange.1 = model w
            /\ req_temperature exchange.1 = 0%Z
            /\ req_max_tokens exchange.1 = 800%Z
            /\ req_system exchange.1 = system_content_for history
            /\ ((req_tools exchange.1 = None
                 /\ req_tool_choice exchange.1 = None)
                \/ (truthy tools = true
                    /\ req_tools exchange.1 = tools
                    /\ req_tool_choice exchange.1 = Some "auto")))
    (issued w (generate_response query history tools tool_manager w).2).
Proof.
  destruct (generate_response _ _ _ _ w) as [text w'] eqn:Hrun. simpl.
  by apply generate_response_any_trace, trace_requests in Hrun.
Qed.

(** X6.  In a run given tools, the tool definitions are withheld from a
    request exactly when it follows the last permitted round. *)
Theorem tools_withheld_exactly_after_last_round
    query history tools tool_manager w text w' k req response :
  truthy tools = true ->
  generate_response query history tools tool_manager w = (text, w') ->
  issued w w' !! k = Some (req, response) ->
  k <= MAX_TOOL_ROUNDS
  /\ (req_tools req = None <-> k = MAX_TOOL_ROUNDS)
  /\ (req_tool_choice req = None <-> k = MAX_TOOL_ROUNDS).
Proof.
  intros Htools Hrun Hk.
  apply generate_response_trace in Hrun; [|done].
  pose proof (trace_position _ _ _ _ _ _ _ _ _ Hrun _ _ Hk) as Hle.
  pose proof (trace_tools _ _ _ _ _ _ _ _ _ Hrun Htools _ _ _ Hk) as Hsent.
  split; [done|].
  case_decide as Hlt.
  - destruct Hsent as [Ht Hc]. rewrite Ht, Hc.
    destruct tools; [|done]. split; (split; [done|lia]).
  - destruct Hsent as [-> ->]. split; (split; [lia|done]).
Qed.

(** X7.  The message lists of a run only grow: the messages of an earlier
    request are a prefix of those of every later request, so no message is
    ever dropped, changed or reordered, and the query stays first. *)
Theorem earlier_messages_are_a_prefix
    query history tools tool_manager w text w' j k req response
    req' response' :
  generate_response query history tools tool_manager w = (text, w') ->
  j <= k ->
  issued w w' !! j = Some (req, response) ->
  issued w w' !! k = Some (req', response') ->
  [{| role := "user"; msg_content := Text query |}]
    `prefix_of` req_messages req
  /\ req_messages req `prefix_of` req_messages req'.
Proof.
  intros Hrun Hjk Hj Hk. apply generate_response_any_trace in Hrun. split.
  - exact (trace_prefix _ _ _ _ _ _ _ _ _ Hrun _ _ _ Hj).
  - exact (trace_prefixes _ _ _ _ _ _ _ _ _ Hrun _ _ _ _ _ _ Hjk Hj Hk).
Qed.

(** *** Executing the tools of a response *)

(** X8.  A tool call that returns hands its text back unchanged: the result
    for the block carries the identifier of the block and exactly the text
    returned. *)
Theorem tool_output_is_handed_back_verbatim
    response w tool_results w' i block call text :
  _execute_tools response (Some the_manager) w = (tool_results, w') ->
  tool_use_blocks response !! i = Some block ->
  executed w w' !! i = Some call ->
  call_outcome call = Returns text ->
  tool_results !! i
  = Some {| result_type := "tool_result";
            tool_use_id := block_id block;
            result_content := text |}.
Proof.
  intros Hrun Hi Hcall Hreturn.
  apply execute_tools_run in Hrun as (calls & Htc & _ & _ & _ & ->); [|done].
  rewrite (executed_app _ _ _ Htc) in Hcall.
  rewrite lookup_zip_with, Hi. simpl. rewrite Hcall. simpl.
  unfold result_of. by rewrite Hreturn.
Qed.

(** The results already collected are carried along untouched. *)
Lemma execute_blocks_acc tool_manager (blocks : list ContentBlock) :
  forall tool_results w,
    execute_blocks tool_manager blocks tool_results w
    = (tool_results ++ (execute_blocks tool_manager blocks [] w).1,
       (execute_blocks tool_manager blocks [] w).2).
Proof.
  induction blocks as [|block rest IH]; intros acc w; simpl.
  - by rewrite app_nil_r.
  - destruct (String.eqb (block_type block) "tool_use"); [|apply IH].
    unfold bind. destruct (try_execute_tool _ _ _ _) as [outcome w1].
    rewrite IH, (IH [_]), <- app_assoc. reflexivity.
Qed.

Lemma execute_blocks_app tool_manager (blocks1 blocks2 : list ContentBlock) :
  forall tool_results w,
    execute_blocks tool_manager (blocks1 ++ blocks2) tool_results w
    = (let* collected := execute_blocks tool_manager blocks1 tool_results in
       execute_blocks tool_manager blocks2 collected) w.
Proof.
  induction blocks1 as [|block rest IH]; intros acc w; simpl; [done|].
  destruct (String.eqb (block_type block) "tool_use"); [|apply IH].
  unfold bind. destruct (try_execute_tool _ _ _ _) as [outcome w1].
  apply IH.
Qed.

Lemma execute_blocks_filter tool_manager (blocks : list ContentBlock) :
  forall tool_results w,
    execute_blocks tool_manager blocks tool_results w
    = execute_blocks tool_manager
        (List.filter (fun b => String.eqb (block_type b) "tool_use") blocks)
        tool_results w.
Proof.
  induction blocks as [|block rest IH]; intros acc w; simpl; [done|].
  destruct (String.eqb (block_type block) "tool_use") eqn:Htype; [|apply IH].
  simpl. rewrite Htype. unfold bind.
  destruct (try_execute_tool _ _ _ _) as [outcome w1]. apply IH.
Qed.

(** X9.  Only the blocks of type [tool_use] matter to [_execute_tools]:
    the text blocks and any other blocks of a response, wherever they
    stand, change neither the results nor the calls made. *)
Theorem other_blocks_do_not_affect_execution response tool_manager w :
  _execute_tools response tool_manager w
  = _execute_tools
      {| content := tool_use_blocks response;
         stop_reason := stop_reason response |}
      tool_manager w.
Proof. unfold _execute_tools. simpl. apply execute_blocks_filter. Qed.

(** X10.  Executing the blocks of a response is executing a first part of
    them and then the rest from the world the first part left: the results
    are those of the first part followed by those of the rest. *)
Theorem execution_splits_along_the_content
    (blocks1 blocks2 : list ContentBlock) reason1 reason2 reason
    tool_manager w :
  _execute_tools {| content := blocks1 ++ blocks2; stop_reason := reason |}
    tool_manager w
  = (let first_part :=
       _execute_tools {| content := blocks1; stop_reason := reason1 |}
         tool_manager w in
     let rest :=
       _execute_tools {| content := blocks2; stop_reason := reason2 |}
         tool_manager first_part.2 in
     (first_part.1 ++ rest.1, rest.2)).
Proof.
  unfold _execute_tools. simpl.
  rewrite execute_blocks_app. unfold bind.
  destruct (execute_blocks tool_manager blocks1 [] w) as [res1 w1]. simpl.
  apply execute_blocks_acc.
Qed.

(** X11.  Called without a manager, [_execute_tools] does not fail: the
    attribute lookup on [None] raises inside the [try], so every block of
    type [tool_use] is answered with the error text of an [AttributeError],
    and nothing is executed or changed. *)
Theorem execution_without_manager_reports_attribute_error response w :
  _execute_tools response None w
  = (map (fun block =>
            {| result_type := "tool_result";
               tool_use_id := block_id block;
               result_content :=
                 "Tool execution error: "
                 +:+ "'NoneType' object has no attribute 'execute_tool'" |})
       (tool_use_blocks response),
     w).
Proof.
  unfold _execute_tools, tool_use_blocks.
  rewrite execute_blocks_acc. simpl.
  induction (content response) as [|block rest IH]; simpl; [done|].
  destruct (String.eqb (block_type block) "tool_use"); [|exact IH].
  unfold bind. simpl. rewrite execute_blocks_acc.
  injection IH as -> ->. reflexivity.
Qed.

(** *** The manager and the history *)

(** The first exchange of a run of the loop is the call made on the
    messages it starts with. *)
Lemma tool_rounds_first_exchange max_rounds system_content tools tool_manager
    current_round current_messages w text w' :
  current_round < max_rounds ->
  tool_rounds max_rounds system_content tools tool_manager
    current_round current_messages w = (text, w') ->
  exists req rest,
    issued w w'
    = (req, (_make_api_call current_messages system_content tools true w).1)
        :: rest.
Proof.
  intros Hlt Hrun. rewrite tool_rounds_step in Hrun.
  case_decide; [|lia]. unfold bind in Hrun.
  destruct (_make_api_call _ _ _ _ _) as [r w1] eqn:Hcall. simpl.
  apply make_api_call_run in Hcall as (Hapi & _ & _).
  destruct (negb (String.eqb (stop_reason r) "tool_use")).
  { injection Hrun as <- <-. eexists _, []. by apply issued_app. }
  destruct (truthy tool_manager) eqn:Htm; simpl in Hrun.
  - destruct (_execute_tools _ _ _) as [results w2] eqn:Hexec.
    apply execute_tools_run in Hexec as (calls & _ & Hapi2 & _); [|done].
    apply (tool_rounds_trace _ _ _ _ _ _ _ _ _ _ eq_refl) in Hrun
      as (exchanges & calls' & Hapi3 & _).
    eexists _, exchanges. apply issued_app.
    rewrite Hapi3, Hapi2, Hapi, <- app_assoc. reflexivity.
  - injection Hrun as <- <-. eexists _, []. by apply issued_app.
Qed.

(** X12.  The manager matters only once the LLM asks for a tool: if the
    response to the first request does not stop with [tool_use], the call
    gives the same text and leaves the same world whatever manager, or none,
    was passed. *)
Theorem manager_matters_only_after_tool_use
    query history tools tool_manager tool_manager' w req response :
  issued w (generate_response query history tools tool_manager w).2 !! 0
    = Some (req, response) ->
  stop_reason response <> "tool_use" ->
  generate_response query history tools tool_manager' w
  = generate_response query history tools tool_manager w.
Proof.
  intros Hfirst Hstop. revert Hfirst.
  unfold generate_response. destruct (truthy tools) eqn:Htools; [|done].
  unfold _run_tool_loop.
  destruct (tool_rounds _ _ _ tool_manager _ _ w) as [text w'] eqn:Hrun.
  simpl. intros Hfirst.
  assert (Hlt : 0 < MAX_TOOL_ROUNDS) by (unfold MAX_TOOL_ROUNDS; lia).
  destruct (tool_rounds_first_exchange _ _ _ _ _ _ _ _ _ Hlt Hrun)
    as (req0 & rest & Hissued).
  rewrite Hissued in Hfirst. injection Hfirst as _ Hresponse.
  rewrite <- Hrun, !tool_rounds_step. case_decide; [|lia].
  unfold bind.
  destruct (_make_api_call _ _ _ _ _) as [r w1]. simpl in Hresponse.
  subst r. apply String.eqb_neq in Hstop. by rewrite Hstop.
Qed.

Lemma append_inv_head (s a b : string) : s +:+ a = s +:+ b -> a = b.
Proof.
  induction s as [|c s IH]; simpl; [done|]. intros [= Heq]. by apply IH.
Qed.

Lemma append_not_longer (s a : string) : s +:+ a = s -> a = "".
Proof.
  induction s as [|c s IH]; simpl; [done|]. intros [= Heq]. by apply IH.
Qed.

(** X13.  The system content tells the histories apart: two histories give
    the same system content exactly when both are empty or absent, or they
    are the same history. *)
Theorem system_content_determines_history (history1 history2 : option string) :
  system_content_for history1 = system_content_for history2
  <-> (truthy history1 = false /\ truthy history2 = false)
      \/ history1 = history2.
Proof.
  unfold system_content_for. generalize SYSTEM_PROMPT. intros prompt. split.
  - destruct (truthy history1) eqn:H1, (truthy history2) eqn:H2; intros Heq.
    + right. destruct history1 as [h1|], history2 as [h2|]; try discriminate.
      apply append_inv_head, append_inv_head in Heq. simpl in Heq.
      by rewrite Heq.
    + apply append_not_longer in Heq. discriminate.
    + symmetry in Heq. apply append_not_longer in Heq. discriminate.
    + by left.
  - intros [[-> ->] | ->]; reflexivity.
Qed.

End Invariants.

(** ** The invariants at work on the scenarios *)

(** The third request of the exhausted run: user, assistant, user,
    assistant, user. *)
Lemma roles_alternate_witness :
  exists req,
    issued exhausted_world exhausted_run.2 !! 2 = Some (req, final_response)
    /\ map role (req_messages req)
       = ["user"; "assistant"; "user"; "assistant"; "user"].
Proof.
  assert (Hrun : generate_response "Question" None (Some test_tools)
                   (Some the_manager) exhausted_world
                 = (exhausted_run.1, exhausted_run.2))
    by (vm_compute; reflexivity).
  evar (req : Request).
  assert (Hk : issued exhausted_world exhausted_run.2 !! 2
               = Some (req, final_response))
    by (subst req; vm_compute; reflexivity).
  exists req. split; [exact Hk|].
  exact (roles_alternate_from_user_to_user
           "Question" None (Some test_tools) (Some the_manager)
           exhausted_world exhausted_run.1 exhausted_run.2 2 req
           final_response Hrun Hk).
Defined.

(** The third request of the exhausted run is the one without tools. *)
Lemma tools_withheld_witness :
  exists req,
    issued exhausted_world exhausted_run.2 !! 2 = Some (req, final_response)
    /\ 2 <= MAX_TOOL_ROUNDS
    /\ (req_tools req = None <-> 2 = MAX_TOOL_ROUNDS)
    /\ (req_tool_choice req = None <-> 2 = MAX_TOOL_ROUNDS).
Proof.
  assert (Hrun : generate_response "Question" None (Some test_tools)
                   (Some the_manager) exhausted_world
                 = (exhausted_run.1, exhausted_run.2))
    by (vm_compute; reflexivity).
  evar (req : Request).
  assert (Hk : issued exhausted_world exhausted_run.2 !! 2
               = Some (req, final_response))
    by (subst req; vm_compute; reflexivity).
  exists req. split; [exact Hk|].
  exact (tools_withheld_exactly_after_last_round
           "Question" None (Some test_tools) (Some the_manager)
           exhausted_world exhausted_run.1 exhausted_run.2 2 req
           final_response eq_refl Hrun Hk).
Defined.

(** The messages of the first request of the exhausted run open those of
    the third. *)
Lemma earlier_messages_witness :
  exists req req',
    issued exhausted_world exhausted_run.2 !! 0 = Some (req, round1_response)
    /\ issued exhausted_world exhausted_run.2 !! 2
       = Some (req', final_response)
    /\ [{| role := "user"; msg_content := Text "Question" |}]
         `prefix_of` req_messages req
    /\ req_messages req `prefix_of` req_messages req'.
Proof.
  assert (Hrun : generate_response "Question" None (Some test_tools)
                   (Some the_manager) exhausted_world
                 = (exhausted_run.1, exhausted_run.2))
    by (vm_compute; reflexivity).
  evar (req : Request). evar (req' : Request).
  assert (Hj : issued exhausted_world exhausted_run.2 !! 0
               = Some (req, round1_response))
    by (subst req; vm_compute; reflexivity).
  assert (Hk : issued exhausted_world exhausted_run.2 !! 2
               = Some (req', final_response))
    by (subst req'; vm_compute; reflexivity).
  assert (Hjk : 0 <= 2) by lia.
  exists req, req'. split; [exact Hj|]. split; [exact Hk|].
  exact (earlier_messages_are_a_prefix
           "Question" None (Some test_tools) (Some the_manager)
           exhausted_world exhausted_run.1 exhausted_run.2 0 2
           req round1_response req' final_response Hrun Hjk Hj Hk).
Defined.

(** The search tool answers: its text is the content of the result. *)
Lemma tool_output_witness :
  exists block call,
    tool_use_blocks round2_response !! 0 = Some block
    /\ executed idle_world succeeding_execution.2 !! 0 = Some call
    /\ call_outcome call = Returns "Alternative content here"
    /\ succeeding_execution.1 !! 0
       = Some {| result_type := "tool_result";
                 tool_use_id := block_id block;
                 result_content := "Alternative content here" |}.
Proof.
  assert (Hrun : _execute_tools round2_response (Some the_manager) idle_world
                 = (succeeding_execution.1, succeeding_execution.2))
    by (vm_compute; reflexivity).
  evar (block : ContentBlock). evar (call : ToolCall).
  assert (Hb : tool_use_blocks round2_response !! 0 = Some block)
    by (subst block; vm_compute; reflexivity).
  assert (Hc : executed idle_world succeeding_execution.2 !! 0 = Some call)
    by (subst call; vm_compute; reflexivity).
  assert (Ho : call_outcome call = Returns "Alternative content here")
    by (vm_compute; reflexivity).
  exists block, call. split_and!; [exact Hb|exact Hc|exact Ho|].
  exact (tool_output_is_handed_back_verbatim
           round2_response idle_world succeeding_execution.1
           succeeding_execution.2 0 block call _ Hrun Hb Hc Ho).
Defined.

(** A direct answer to a call given tools: the same run without manager. *)
Lemma manager_matters_witness :
  exists req,
    issued direct_world answering_run.2 !! 0 = Some (req, direct_answer)
    /\ stop_reason direct_answer <> "tool_use"
    /\ generate_response "Question" None (Some test_tools) None direct_world
       = answering_run.
Proof.
  evar (req : Request).
  assert (Hfirst : issued direct_world answering_run.2 !! 0
                   = Some (req, direct_answer))
    by (subst req; vm_compute; reflexivity).
  assert (Hstop : stop_reason direct_answer <> "tool_use") by discriminate.
  exists req. split; [exact Hfirst|]. split; [exact Hstop|].
  exact (manager_matters_only_after_tool_use
           "Question" None (Some test_tools) (Some the_manager) None
           direct_world req direct_answer Hfirst Hstop).
Defined.

(** ** Containment of tool errors, signals included *)

Section Containment.

Context {L M : Type} `{LLMClient L} `{Escaping.AnyToolExecutor M}.

Implicit Types (w : World L M) (response : Response).



Lemma escaping_tool_rounds_step max_rounds system_content tools tool_manager
    current_round current_messages :
  Escaping.tool_rounds (H:=H) (H0:=H0) max_rounds system_content tools
    tool_manager current_round current_messages
  = if decide (current_round < max_rounds) then
      Escaping.bind_raising
        (Escaping.lift
           (_make_api_call current_messages system_content tools true))
        (fun response =>
           if negb (String.eqb (stop_reason response) "tool_use") then
             Escaping.pure (_extract_text_response response)
           else if negb (truthy tool_manager) then
             Escaping.pure (_extract_text_response response)
           else
             Escaping.bind_raising
               (Escaping._execute_tools response tool_manager)
               (fun tool_results =>
                  Escaping.tool_rounds max_rounds system_content tools
                    tool_manager (current_round + 1)
                    (_build_messages_with_tool_results
                       current_messages response tool_results)))
    else
      Escaping.bind_raising
        (Escaping.lift
           (_make_api_call current_messages system_content None false))
        (fun final_response =>
           Escaping.pure (_extract_text_response final_response)).
Proof.
  simp tool_rounds.
  destruct (lt_dec current_round max_rounds); simpl;
    case_decide; try lia; reflexivity.
Qed.





End Containment.



(** ** The two embeddings agree *)

(** On a manager that raises only instances of [Exception] nothing ever
    propagates, and the embedding with signals does what the embedding
    without them does: same value, same world. *)
Section Agreement.

Context {L M : Type} `{LLMClient L} `{ToolExecutor M}.

Implicit Types (w : World L M).

Lemma execute_blocks_agree tool_manager (blocks : list ContentBlock) :
  forall tool_results w,
    Escaping.execute_blocks (H0 := Escaping.without_signals)
      tool_manager blocks tool_results w
    = Escaping.lift (execute_blocks tool_manager blocks tool_results) w.
Proof.
  unfold Escaping.lift.
  induction blocks as [|block rest IH]; intros acc w; simpl; [done|].
  destruct (String.eqb (block_type block) "tool_use"); [|apply IH].
  unfold Escaping.bind_raising, bind. destruct tool_manager as [[]|]; simpl.
  - unfold Escaping.tool_manager_execute_tool, tool_manager_execute_tool.
    simpl. destruct (execute_tool _ _ _) as [m outcome]. apply IH.
  - apply IH.
Qed.

Lemma tool_rounds_agree max_rounds system_content tools tool_manager n :
  forall current_round current_messages w,
    max_rounds - current_round = n ->
    Escaping.tool_rounds (H0 := Escaping.without_signals) max_rounds
      system_content tools tool_manager current_round current_messages w
    = Escaping.lift
        (tool_rounds max_rounds system_content tools tool_manager
           current_round current_messages) w.
Proof.
  unfold Escaping.lift.
  induction n as [|n IH]; intros cr msgs w Hn;
    rewrite escaping_tool_rounds_step, tool_rounds_step;
    case_decide; try lia;
    unfold Escaping.bind_raising, Escaping.lift, bind;
    destruct (_make_api_call _ _ _ _ _) as [response w1]; [done|].
  destruct (negb (String.eqb (stop_reason response) "tool_use")); [done|].
  destruct (negb (truthy tool_manager)); [done|].
  unfold Escaping._execute_tools, _execute_tools.
  rewrite execute_blocks_agree. unfold Escaping.lift.
  destruct (execute_blocks _ _ _ _) as [results w2].
  rewrite IH; [done|lia].
Qed.

Lemma generate_response_agree query history tools tool_manager w :
  Escaping.generate_response (H0 := Escaping.without_signals)
    query history tools tool_manager w
  = Escaping.lift (generate_response query history tools tool_manager) w.
Proof.
  unfold Escaping.generate_response, generate_response.
  destruct (truthy tools).
  - by apply (tool_rounds_agree _ _ _ _ MAX_TOOL_ROUNDS).
  - unfold Escaping.bind_raising, Escaping.lift, bind.
    by destruct (_make_api_call _ _ _ _ _).
Qed.

End Agreement.
